(** * Quadrotor swarm encoders: [envs/quadrotors/quad_multi_model.py]

    A shallow embedding of the two observation encoders
    ([QuadMultiMeanEncoder], [QuadMultiHistogramEncoder]) and of
    [register_models], followed by the properties proved about them.

    Tensors are kept the way the tensor library keeps them: a shape and a
    flat row-major list of scalars.  The arithmetic of the scalars is a
    parameter (a [Scalar] instance): it may be exact, as the integers, or
    rounded with infinities of its own, as the binary32 format below.  No
    law of the arithmetic is built in; a law that a proof relies on is an
    explicit hypothesis of its theorem.  On top of the arithmetic sits one
    not-a-number value, which is what the mean over no element returns and
    which every operation propagates. *)

From Stdlib Require Import ZArith Lia.
From Stdlib Require Import Floats.SpecFloat.
From stdpp Require Import base list strings gmap.

(** ** Exceptions *)

Inductive shape_error :=
| AmbiguousInferredDim   (* "the unspecified dimension size -1 can be any value" *)
| InvalidShape           (* "shape ... is invalid for input of size ..." *)
| MatMulMismatch         (* "mat1 and mat2 shapes cannot be multiplied" *)
| CatMismatch.           (* "Sizes of tensors must match except in dimension 1" *)

Inductive exn :=
| KeyError (key : string)
| RuntimeError (why : shape_error)
| NotImplementedError (msg : string).

Inductive result (A : Type) :=
| Ok (a : A)
| Raise (e : exn).
Arguments Ok {A} a.
Arguments Raise {A} e.

#[global] Instance result_ret : MRet result := λ A, @Ok A.
#[global] Instance result_bind : MBind result :=
  λ A B f m, match m with Ok a => f a | Raise e => Raise e end.

(** ** Scalars *)

Class Scalar (F : Type) := {
  fzero : F;
  fadd : F → F → F;
  fmul : F → F → F;
  fdivn : F → nat → F;   (* quotient of a sum by the number of its terms *)
}.

(* An entry of a tensor: a scalar of the arithmetic (which may itself be an
   infinity of a rounded format), or the not-a-number value. *)
Inductive num (F : Type) :=
| Val (x : F)
| NaN.
Arguments Val {F} x.
Arguments NaN {F}.

Section Numbers.
Context {F : Type} `{Scalar F}.

Definition nzero : num F := Val fzero.

Definition nadd (a b : num F) : num F :=
  match a, b with
  | Val x, Val y => Val (fadd x y)
  | _, _ => NaN
  end.

Definition nmul (a b : num F) : num F :=
  match a, b with
  | Val x, Val y => Val (fmul x y)
  | _, _ => NaN
  end.

Definition napply (f : F → F) (a : num F) : num F :=
  match a with
  | Val x => Val (f x)
  | NaN => NaN
  end.
End Numbers.

(** ** Tensors *)

Fixpoint chunks {A : Type} (n w : nat) (l : list A) : list (list A) :=
  match n with
  | 0 => []
  | S n' => take w l :: chunks n' w (drop w l)
  end.

Record tensor2 (F : Type) := Tensor2 {
  nrows : nat;
  ncols : nat;
  data2 : list (num F);
}.
Arguments Tensor2 {F} nrows ncols data2.
Arguments nrows {F} t.
Arguments ncols {F} t.
Arguments data2 {F} t.

Record tensor3 (F : Type) := Tensor3 {
  dim0 : nat;
  dim1 : nat;
  dim2 : nat;
  data3 : list (num F);
}.
Arguments Tensor3 {F} dim0 dim1 dim2 data3.
Arguments dim0 {F} t.
Arguments dim1 {F} t.
Arguments dim2 {F} t.
Arguments data3 {F} t.

Definition wf2 {F : Type} (t : tensor2 F) : Prop :=
  length (data2 t) = nrows t * ncols t.

Definition rows_of {F : Type} (t : tensor2 F) : list (list (num F)) :=
  chunks (nrows t) (ncols t) (data2 t).

Definition of_rows {F : Type} (w : nat) (rs : list (list (num F))) : tensor2 F :=
  Tensor2 (length rs) w (concat rs).

(** ** The tensor operations the encoders call *)

Section Torch.
Context {F : Type} `{Scalar F}.

(* t[:, :k] *)
Definition cols_to (k : nat) (t : tensor2 F) : tensor2 F :=
  Tensor2 (nrows t) (k `min` ncols t) (concat (map (take k) (rows_of t))).

(* t[:, k:] *)
Definition cols_from (k : nat) (t : tensor2 F) : tensor2 F :=
  Tensor2 (nrows t) (ncols t - k) (concat (map (drop k) (rows_of t))).

(* The size of the one dimension given as -1, for a tensor of [numel]
   elements and a product [newsize] of the dimensions that are given. *)
Definition infer_size (numel newsize : nat) : result nat :=
  if (numel =? newsize) || ((0 <? newsize) && (numel mod newsize =? 0)) then
    if newsize =? 0 then Raise (RuntimeError AmbiguousInferredDim)
    else Ok (numel / newsize)
  else Raise (RuntimeError InvalidShape).

(* t.reshape(-1, d) *)
Definition reshape_rows (d : nat) (t : tensor2 F) : result (tensor2 F) :=
  n ← infer_size (nrows t * ncols t) d;
  mret (Tensor2 n d (data2 t)).

(* t.reshape(b, -1, h) *)
Definition reshape_batch (b h : nat) (t : tensor2 F) : result (tensor3 F) :=
  n ← infer_size (nrows t * ncols t) (b * h);
  mret (Tensor3 b n h (data2 t)).

Definition vsum (h : nat) (vs : list (list (num F))) : list (num F) :=
  foldr (zip_with nadd) (replicate h nzero) vs.

Definition mean_vec (n h : nat) (vs : list (list (num F))) : list (num F) :=
  match n with
  | 0 => replicate h NaN
  | S _ => map (napply (λ x, fdivn x n)) (vsum h vs)
  end.

(* torch.mean(t, dim=1) *)
Definition mean_dim1 (t : tensor3 F) : tensor2 F :=
  Tensor2 (dim0 t) (dim2 t)
    (concat (map (λ blk, mean_vec (dim1 t) (dim2 t) (chunks (dim1 t) (dim2 t) blk))
                 (chunks (dim0 t) (dim1 t * dim2 t) (data3 t)))).

(* torch.cat((a, b), dim=1) *)
Definition cat_dim1 (a b : tensor2 F) : result (tensor2 F) :=
  if nrows a =? nrows b then
    mret (Tensor2 (nrows a) (ncols a + ncols b)
                  (concat (zip_with app (rows_of a) (rows_of b))))
  else Raise (RuntimeError CatMismatch).

(** nn.Linear: [weight l j i] is the entry in row [j] and column [i] of
    the [out_features] × [in_features] weight matrix, [bias l j] the
    [j]-th entry of the bias. *)
Record Linear := {
  in_features : nat;
  out_features : nat;
  weight : nat → nat → num F;
  bias : nat → num F;
}.

Definition dot (x w : list (num F)) : num F :=
  foldr nadd nzero (zip_with nmul x w).

Definition linear_vec (l : Linear) (x : list (num F)) : list (num F) :=
  map (λ j, nadd (dot x (map (weight l j) (seq 0 (in_features l)))) (bias l j))
      (seq 0 (out_features l)).

Definition Linear_forward (l : Linear) (t : tensor2 F) : result (tensor2 F) :=
  if ncols t =? in_features l then
    mret (Tensor2 (nrows t) (out_features l)
                  (concat (map (linear_vec l) (rows_of t))))
  else Raise (RuntimeError MatMulMismatch).

(** nn.Sequential over the two kinds of layer used here. *)
Inductive layer :=
| LinearLayer (l : Linear)
| Activation (f : F → F).

Definition layer_forward (m : layer) (t : tensor2 F) : result (tensor2 F) :=
  match m with
  | LinearLayer l => Linear_forward l t
  | Activation f => mret (Tensor2 (nrows t) (ncols t) (map (napply f) (data2 t)))
  end.

Fixpoint Sequential_forward (ms : list layer) (t : tensor2 F) : result (tensor2 F) :=
  match ms with
  | [] => mret t
  | m :: ms' => t' ← layer_forward m t; Sequential_forward ms' t'
  end.

(** Modelled from the spec: [calc_num_elements] of
    [algorithms.utils.pytorch_utils] is not part of this file.  The
    final layer takes the "concatenation of the two embeddings", so the
    size computed for a sub-network is the number of elements it returns
    for one input vector of the given length. *)
Definition calc_num_elements (module : list layer) (n : nat) : result nat :=
  out ← Sequential_forward module (Tensor2 1 n (replicate n nzero));
  mret (nrows out * ncols out).

(* obs_dict['obs'] *)
Definition getitem (d : gmap string (tensor2 F)) (k : string) : result (tensor2 F) :=
  match d !! k with
  | Some t => Ok t
  | None => Raise (KeyError k)
  end.
End Torch.
Arguments Linear F : clear implicits.
Arguments layer F : clear implicits.

(** ** Configuration *)

Record Cfg := {
  hidden_size : nat;
  nonlinearity_name : string;
}.

(** The helper [nonlinearity(cfg)] of [algorithms.appo.model_utils] is not
    part of this file; the activation it selects is a parameter. *)
Class Nonlinearity (F : Type) := nonlinearity : Cfg → F → F.

(** The values a freshly built [nn.Linear] starts with. *)
Record Linear_init (F : Type) := {
  init_weight : nat → nat → num F;
  init_bias : nat → num F;
}.
Arguments init_weight {F} l.
Arguments init_bias {F} l.

Definition nn_Linear {F : Type} (i o : nat) (θ : Linear_init F) : Linear F :=
  {| in_features := i; out_features := o;
     weight := init_weight θ; bias := init_bias θ |}.

(** ** Mean-embedding encoder *)

Module QuadMultiMeanEncoder.
Section Defs.
Context {F : Type} `{Scalar F} `{Nonlinearity F}.

Record t := {
  self_obs_dim : nat;
  neighbor_obs_dim : nat;
  neighbor_hidden_size : nat;
  self_encoder : list (layer F);
  neighbor_encoder : list (layer F);
  self_encoder_out_size : nat;
  neighbor_encoder_out_size : nat;
  feed_forward : Linear F;
}.

(* [θ k] holds the initial values of the k-th linear layer built.  The
   arguments obs_space and timing are not read by the constructor body;
   [init_fc_blocks] belongs to the base class and sets no attribute that
   [forward] reads. *)
Definition __init__ (cfg : Cfg) (θ : nat → Linear_init F)
    (self_obs_dim neighbor_obs_dim neighbor_hidden_size : option nat) : result t :=
  let self_obs_dim := default 18 self_obs_dim in
  let neighbor_obs_dim := default 6 neighbor_obs_dim in
  let neighbor_hidden_size := default 32 neighbor_hidden_size in
  let fc_encoder_layer := hidden_size cfg in
  let self_encoder :=
    [ LinearLayer (nn_Linear self_obs_dim fc_encoder_layer (θ 0));
      Activation (nonlinearity cfg);
      LinearLayer (nn_Linear fc_encoder_layer fc_encoder_layer (θ 1));
      Activation (nonlinearity cfg) ] in
  let neighbor_encoder :=
    [ LinearLayer (nn_Linear neighbor_obs_dim neighbor_hidden_size (θ 2));
      Activation (nonlinearity cfg) ] in
  self_encoder_out_size ← calc_num_elements self_encoder self_obs_dim;
  neighbor_encoder_out_size ← calc_num_elements neighbor_encoder neighbor_obs_dim;
  let feed_forward :=
    nn_Linear (self_encoder_out_size + neighbor_encoder_out_size) (hidden_size cfg) (θ 3) in
  mret {| self_obs_dim := self_obs_dim;
          neighbor_obs_dim := neighbor_obs_dim;
          neighbor_hidden_size := neighbor_hidden_size;
          self_encoder := self_encoder;
          neighbor_encoder := neighbor_encoder;
          self_encoder_out_size := self_encoder_out_size;
          neighbor_encoder_out_size := neighbor_encoder_out_size;
          feed_forward := feed_forward |}.

Definition forward (self : t) (obs_dict : gmap string (tensor2 F)) : result (tensor2 F) :=
  obs ← getitem obs_dict "obs";
  let obs_self := cols_to (self_obs_dim self) obs in
  let obs_neighbors := cols_from (self_obs_dim self) obs in
  self_embed ← Sequential_forward (self_encoder self) obs_self;
  obs_neighbors ← reshape_rows (neighbor_obs_dim self) obs_neighbors;
  neighbor_embeds ← Sequential_forward (neighbor_encoder self) obs_neighbors;
  let batch_size := nrows obs_self in
  neighbor_embeds ← reshape_batch batch_size (neighbor_hidden_size self) neighbor_embeds;
  let mean_embed := mean_dim1 neighbor_embeds in
  embeddings ← cat_dim1 self_embed mean_embed;
  out ← Linear_forward (feed_forward self) embeddings;
  mret out.

(* The value of the local variable [neighbor_embeds] of [forward] when the
   mean is taken: the steps of [forward] up to the second reshape.  Its
   middle dimension is the number of elements the mean averages over. *)
Definition neighbor_embeds (self : t) (obs_dict : gmap string (tensor2 F)) : result (tensor3 F) :=
  obs ← getitem obs_dict "obs";
  let obs_self := cols_to (self_obs_dim self) obs in
  let obs_neighbors := cols_from (self_obs_dim self) obs in
  self_embed ← Sequential_forward (self_encoder self) obs_self;
  obs_neighbors ← reshape_rows (neighbor_obs_dim self) obs_neighbors;
  neighbor_embeds ← Sequential_forward (neighbor_encoder self) obs_neighbors;
  let batch_size := nrows obs_self in
  reshape_batch batch_size (neighbor_hidden_size self) neighbor_embeds.
End Defs.
Arguments t F : clear implicits.
End QuadMultiMeanEncoder.

(** ** Histogram encoder *)

Module QuadMultiHistogramEncoder.
Section Defs.
Context {F : Type} `{Scalar F} `{Nonlinearity F}.

Record t := {
  self_obs_dim : nat;
  histogram_bins : nat;
  histogram_hidden_size : nat;
  self_encoder : list (layer F);
  histogram_encoder : list (layer F);
  self_encoder_out_size : nat;
  histogram_encoder_out_size : nat;
  feed_forward : Linear F;
  encoder_out_size : nat;
}.

Definition __init__ (cfg : Cfg) (θ : nat → Linear_init F)
    (self_obs_dim histogram_bins histogram_hidden_size : option nat) : result t :=
  let self_obs_dim := default 18 self_obs_dim in
  let histogram_bins := default 64 histogram_bins in
  let histogram_hidden_size := default 64 histogram_hidden_size in
  let fc_encoder_layer := hidden_size cfg in
  let self_encoder :=
    [ LinearLayer (nn_Linear self_obs_dim fc_encoder_layer (θ 0));
      Activation (nonlinearity cfg);
      LinearLayer (nn_Linear fc_encoder_layer fc_encoder_layer (θ 1));
      Activation (nonlinearity cfg) ] in
  let histogram_encoder :=
    [ LinearLayer (nn_Linear histogram_bins histogram_hidden_size (θ 2));
      Activation (nonlinearity cfg) ] in
  self_encoder_out_size ← calc_num_elements self_encoder self_obs_dim;
  histogram_encoder_out_size ← calc_num_elements histogram_encoder histogram_bins;
  let feed_forward :=
    nn_Linear (self_encoder_out_size + histogram_encoder_out_size) (hidden_size cfg) (θ 3) in
  mret {| self_obs_dim := self_obs_dim;
          histogram_bins := histogram_bins;
          histogram_hidden_size := histogram_hidden_size;
          self_encoder := self_encoder;
          histogram_encoder := histogram_encoder;
          self_encoder_out_size := self_encoder_out_size;
          histogram_encoder_out_size := histogram_encoder_out_size;
          feed_forward := feed_forward;
          encoder_out_size := hidden_size cfg |}.

Definition forward (self : t) (obs_dict : gmap string (tensor2 F)) : result (tensor2 F) :=
  obs ← getitem obs_dict "obs";
  let obs_self := cols_to (self_obs_dim self) obs in
  let obs_histogram := cols_from (self_obs_dim self) obs in
  self_embed ← Sequential_forward (self_encoder self) obs_self;
  histogram_embeds ← Sequential_forward (histogram_encoder self) obs_histogram;
  embeddings ← cat_dim1 self_embed histogram_embeds;
  out ← Linear_forward (feed_forward self) embeddings;
  mret out.
End Defs.
Arguments t F : clear implicits.
End QuadMultiHistogramEncoder.

(** ** The encoder registry *)

Inductive encoder_class :=
| QuadMultiMeanEncoderCls
| QuadMultiHistogramEncoderCls
| FrameworkEncoderCls (name : string).

(** Modelled from the spec: [register_custom_encoder] of
    [algorithms.appo.model_utils] is not part of this file; it "registers
    the corresponding encoder class into the shared registry", a
    "process-wide mapping from string key to encoder class". *)
Definition register_custom_encoder (custom_encoder_name : string) (encoder_cls : encoder_class)
    (ENCODER_REGISTRY : gmap string encoder_class) : gmap string encoder_class :=
  <[custom_encoder_name := encoder_cls]> ENCODER_REGISTRY.

(* The call either returns (None) or raises; the registry after the call
   is the second component in both cases. *)
Definition register_models (quad_custom_encoder_name : option string)
    (ENCODER_REGISTRY : gmap string encoder_class) : option exn * gmap string encoder_class :=
  let quad_custom_encoder_name := default "quad_multi_encoder_deepset" quad_custom_encoder_name in
  match ENCODER_REGISTRY !! quad_custom_encoder_name with
  | None =>
      if String.eqb quad_custom_encoder_name "quad_multi_encoder_deepset" then
        (None, register_custom_encoder quad_custom_encoder_name QuadMultiMeanEncoderCls ENCODER_REGISTRY)
      else if String.eqb quad_custom_encoder_name "quad_multi_encoder_histogram" then
        (None, register_custom_encoder quad_custom_encoder_name QuadMultiHistogramEncoderCls ENCODER_REGISTRY)
      else
        (Some (NotImplementedError ("encoder " +:+ quad_custom_encoder_name +:+ " not supported!")),
         ENCODER_REGISTRY)
  | Some _ => (None, ENCODER_REGISTRY)
  end.

(* [sub] occurs in [s]. *)
Definition contains (sub s : string) : Prop :=
  ∃ pre post, s = pre +:+ sub +:+ post.

(* A registry as the framework may leave it before this module is used. *)
Definition demo_registry : gmap string encoder_class :=
  {[ "conv_encoder" := FrameworkEncoderCls "ConvEncoder" ]}.

(** ** An integer arithmetic to run the model on *)

#[global] Instance Z_scalar : Scalar Z := {|
  fzero := 0%Z;
  fadd := Z.add;
  fmul := Z.mul;
  fdivn := λ x n, (x / Z.of_nat n)%Z;
|}.

#[global] Instance Z_relu : Nonlinearity Z := λ _ x, Z.max 0 x.

Definition demo_cfg : Cfg := {| hidden_size := 2; nonlinearity_name := "relu" |}.

Definition demo_init (k : nat) : Linear_init Z := {|
  init_weight := λ j i, Val (Z.of_nat (k + j + 2 * i) - 3)%Z;
  init_bias := λ j, Val (Z.of_nat j);
|}.

(* Two observations: a self segment of length 1 and two neighbors of
   length 2 each; and the same two observations with the neighbors swapped. *)
Definition demo_obs : tensor2 Z :=
  Tensor2 2 5 (map Val [1; 2; 3; 4; 5;  6; 7; 8; 9; 10]%Z).

Definition demo_obs_swapped : tensor2 Z :=
  Tensor2 2 5 (map Val [1; 4; 5; 2; 3;  6; 9; 10; 7; 8]%Z).

(* One observation with three neighbors, and the same observation with the
   neighbors in the order second, third, first. *)
Definition demo_obs3 : tensor2 Z :=
  Tensor2 1 7 (map Val [1;  2; 3;  4; 5;  6; 7]%Z).

Definition demo_obs3_rotated : tensor2 Z :=
  Tensor2 1 7 (map Val [1;  4; 5;  6; 7;  2; 3]%Z).

(** ** The binary32 arithmetic

    IEEE 754 single precision (24 bits of precision, exponents up to 128),
    rounding to nearest even: the arithmetic of the tensors the encoders
    are given. *)

Definition f32 (z : Z) : spec_float := binary_normalize 24 128 z 0 false.

#[global] Instance f32_scalar : Scalar spec_float := {|
  fzero := S754_zero false;
  fadd := SFadd 24 128;
  fmul := SFmul 24 128;
  fdivn := λ x n, SFdiv 24 128 x (f32 (Z.of_nat n));
|}.

#[global] Instance f32_relu : Nonlinearity spec_float :=
  λ _ x, if SFltb x (S754_zero false) then S754_zero false else x.

Definition f32_cfg : Cfg := {| hidden_size := 1; nonlinearity_name := "relu" |}.

(* Every weight is 1 and every bias is 0. *)
Definition f32_init (k : nat) : Linear_init spec_float := {|
  init_weight := λ _ _, Val (f32 1);
  init_bias := λ _, Val (f32 0);
|}.

(* One observation: self segment 0 and the three neighbors 2^24, 1, 1; and
   the same observation with the neighbors in the order 1, 1, 2^24. *)
Definition f32_obs : tensor2 spec_float :=
  Tensor2 1 4 (map (λ z, Val (f32 z)) [0; 16777216; 1; 1]%Z).

Definition f32_obs_reordered : tensor2 spec_float :=
  Tensor2 1 4 (map (λ z, Val (f32 z)) [0; 1; 1; 16777216]%Z).

(** ** The mean-embedding pipeline, observation by observation

    The description of section 4.1, written for a single observation
    vector [x]: the self segment goes through two fully-connected layers,
    each followed by the nonlinearity; the remainder is cut into
    per-neighbor vectors, each goes through one fully-connected layer and
    the nonlinearity, and the results are averaged; the two embeddings are
    concatenated and go through the final fully-connected layer. *)

Section Pipeline.
Context {F : Type} `{Scalar F} `{Nonlinearity F}.

Definition fc_act (cfg : Cfg) (l : Linear F) (x : list (num F)) : list (num F) :=
  map (napply (nonlinearity cfg)) (linear_vec l x).

Definition mean_embedding (cfg : Cfg) (θ : nat → Linear_init F)
    (self_obs_dim neighbor_obs_dim neighbor_hidden_size : nat)
    (x : list (num F)) : list (num F) :=
  let hidden := hidden_size cfg in
  let self_segment := take self_obs_dim x in
  let neighbor_segment := drop self_obs_dim x in
  let neighbors := length neighbor_segment / neighbor_obs_dim in
  let self_embed :=
    fc_act cfg (nn_Linear hidden hidden (θ 1))
      (fc_act cfg (nn_Linear self_obs_dim hidden (θ 0)) self_segment) in
  let neighbor_embeds :=
    map (fc_act cfg (nn_Linear neighbor_obs_dim neighbor_hidden_size (θ 2)))
        (chunks neighbors neighbor_obs_dim neighbor_segment) in
  let mean_embed := mean_vec neighbors neighbor_hidden_size neighbor_embeds in
  linear_vec (nn_Linear (hidden + neighbor_hidden_size) hidden (θ 3))
    (self_embed ++ mean_embed).

Definition histogram_embedding (cfg : Cfg) (θ : nat → Linear_init F)
    (self_obs_dim histogram_bins histogram_hidden_size : nat)
    (x : list (num F)) : list (num F) :=
  let hidden := hidden_size cfg in
  let self_embed :=
    fc_act cfg (nn_Linear hidden hidden (θ 1))
      (fc_act cfg (nn_Linear self_obs_dim hidden (θ 0)) (take self_obs_dim x)) in
  let histogram_embed :=
    fc_act cfg (nn_Linear histogram_bins histogram_hidden_size (θ 2))
      (drop self_obs_dim x) in
  linear_vec (nn_Linear (hidden + histogram_hidden_size) hidden (θ 3))
    (self_embed ++ histogram_embed).
End Pipeline.

(** What it means for one observation to be another with its neighbors
    reordered: same self segment, and the [n] per-neighbor vectors of
    length [d] are a permutation of each other. *)
Definition neighbors_permuted {A : Type} (s d n : nat) (x x' : list A) : Prop :=
  take s x = take s x' ∧ chunks n d (drop s x) ≡ₚ chunks n d (drop s x').

(* Every row has length [w]. *)
Definition rect {A : Type} (w : nat) (rs : list (list A)) : Prop :=
  Forall (λ r, length r = w) rs.


(** * Properties *)

(** ** Lists cut into rows *)

Section Chunks.
Context {A : Type}.
Implicit Types (l : list A) (rs : list (list A)).

Lemma chunks_length n w l : length (chunks n w l) = n.
Proof. revert l. induction n as [|n IH]; intros l; simpl; [done|]. by rewrite IH. Qed.

Lemma chunks_concat_app w rs l :
  rect w rs → chunks (length rs) w (concat rs ++ l) = rs.
Proof.
  induction 1 as [|r rs Hr _ IH]; simpl; [done|].
  rewrite <- (assoc_L (++)).
  rewrite take_app_length' by done. rewrite drop_app_length' by done.
  by rewrite IH.
Qed.

Lemma chunks_concat w rs : rect w rs → chunks (length rs) w (concat rs) = rs.
Proof. intros Hr. rewrite <- (app_nil_r (concat rs)). by apply chunks_concat_app. Qed.

Lemma chunks_rect n w l : length l = n * w → rect w (chunks n w l).
Proof.
  revert l. induction n as [|n IH]; intros l Hl; simpl; [constructor|].
  constructor.
  - rewrite length_take. lia.
  - apply IH. rewrite length_drop. lia.
Qed.

Lemma concat_chunks n w l : length l = n * w → concat (chunks n w l) = l.
Proof.
  revert l. induction n as [|n IH]; intros l Hl; simpl.
  - by destruct l.
  - rewrite IH; [apply take_drop|]. rewrite length_drop. lia.
Qed.

Lemma rect_concat_length w rs : rect w rs → length (concat rs) = length rs * w.
Proof. induction 1 as [|r rs Hr _ IH]; simpl; [done|]. rewrite length_app. lia. Qed.

Lemma rect_map {B} (f : B → list A) w (xs : list B) :
  (∀ x, x ∈ xs → length (f x) = w) → rect w (map f xs).
Proof. intros Hf. apply Forall_map, Forall_forall. exact Hf. Qed.

Lemma rect_elem w rs r : rect w rs → r ∈ rs → length r = w.
Proof. intros Hr Hin. by apply (proj1 (Forall_forall _ _) Hr). Qed.
End Chunks.

(** ** The tensor operations, on a tensor given by its rows *)

Section TorchFacts.
Context {F : Type} `{Scalar F}.
Implicit Types (t : tensor2 F) (rs : list (list (num F))).

Lemma rows_of_of_rows w rs : rect w rs → rows_of (of_rows w rs) = rs.
Proof. intros Hr. unfold rows_of, of_rows; simpl. by apply chunks_concat. Qed.

Lemma rows_of_rect t : wf2 t → rect (ncols t) (rows_of t).
Proof. intros Hwf. by apply chunks_rect. Qed.

Lemma rows_of_length t : length (rows_of t) = nrows t.
Proof. apply chunks_length. Qed.

Lemma of_rows_rows_of t : wf2 t → of_rows (ncols t) (rows_of t) = t.
Proof.
  intros Hwf. destruct t as [b w l]; unfold of_rows, rows_of, wf2 in *; simpl in *.
  by rewrite chunks_length, concat_chunks.
Qed.

Lemma wf2_of_rows w rs : rect w rs → wf2 (of_rows w rs).
Proof. intros Hr. unfold wf2, of_rows; simpl. by apply rect_concat_length. Qed.

Lemma cols_to_of_rows k w rs :
  rect w rs → cols_to k (of_rows w rs) = of_rows (k `min` w) (map (take k) rs).
Proof.
  intros Hr. unfold cols_to. rewrite rows_of_of_rows by done.
  unfold of_rows; simpl. by rewrite length_map.
Qed.

Lemma cols_from_of_rows k w rs :
  rect w rs → cols_from k (of_rows w rs) = of_rows (w - k) (map (drop k) rs).
Proof.
  intros Hr. unfold cols_from. rewrite rows_of_of_rows by done.
  unfold of_rows; simpl. by rewrite length_map.
Qed.

Lemma Linear_forward_of_rows (l : Linear F) w rs :
  rect w rs → w = in_features l →
  Linear_forward l (of_rows w rs) = Ok (of_rows (out_features l) (map (linear_vec l) rs)).
Proof.
  intros Hr ->. unfold Linear_forward. rewrite rows_of_of_rows by done.
  simpl. rewrite Nat.eqb_refl. unfold of_rows. by rewrite length_map.
Qed.

Lemma Activation_forward_of_rows (f : F → F) w rs :
  layer_forward (Activation f) (of_rows w rs)
  = Ok (of_rows w (map (map (napply f)) rs)).
Proof.
  unfold of_rows; simpl. by rewrite length_map, concat_map.
Qed.

Lemma length_linear_vec (l : Linear F) x : length (linear_vec l x) = out_features l.
Proof. unfold linear_vec. by rewrite length_map, length_seq. Qed.

Lemma infer_size_mul k m : 0 < m → infer_size (k * m) m = Ok k.
Proof.
  intros Hm. unfold infer_size.
  rewrite Nat.Div0.mod_mul, Nat.div_mul by lia.
  replace (0 <? m) with true by (symmetry; apply Nat.ltb_lt; lia).
  replace (m =? 0) with false by (symmetry; apply Nat.eqb_neq; lia).
  by rewrite orb_true_r.
Qed.

Lemma infer_size_zero numel : ∃ e, infer_size numel 0 = Raise (RuntimeError e).
Proof.
  unfold infer_size. simpl. rewrite orb_false_r.
  destruct (numel =? 0); eauto.
Qed.

Lemma infer_size_zero_zero : infer_size 0 0 = Raise (RuntimeError AmbiguousInferredDim).
Proof. done. Qed.

Lemma infer_size_Ok numel m k : infer_size numel m = Ok k → 0 < m ∧ numel = k * m.
Proof.
  unfold infer_size. intros Hi.
  destruct (m =? 0) eqn:Hm.
  - by destruct (_ || _).
  - apply Nat.eqb_neq in Hm.
    destruct (_ || _) eqn:Hc; [|done]. injection Hi as <-.
    split; [lia|].
    apply orb_true_iff in Hc as [Hc|Hc].
    + apply Nat.eqb_eq in Hc as ->. rewrite Nat.div_same by done. lia.
    + apply andb_true_iff in Hc as [_ Hc]. apply Nat.eqb_eq in Hc.
      pose proof (Nat.div_mod_eq numel m). lia.
Qed.

Lemma concat_concat {A} (ll : list (list (list A))) :
  concat (concat ll) = concat (map (λ x, concat x) ll).
Proof. induction ll as [|x ll IH]; simpl; [done|]. by rewrite concat_app, IH. Qed.

Lemma reshape_rows_of_rows n d rs :
  0 < d → rect (n * d) rs →
  reshape_rows d (of_rows (n * d) rs) = Ok (of_rows d (concat (map (chunks n d) rs))).
Proof.
  intros Hd Hr. unfold reshape_rows. simpl.
  replace (length rs * (n * d)) with (length rs * n * d) by lia.
  rewrite infer_size_mul by done. simpl. unfold of_rows. f_equal. f_equal.
  - clear Hr. induction rs as [|r rs IH]; simpl; [done|].
    rewrite length_app, chunks_length. lia.
  - rewrite concat_concat. f_equal.
    induction Hr as [|r rs Hlen _ IH]; simpl; [done|].
    rewrite concat_chunks by done. by f_equal.
Qed.

Lemma reshape_batch_of_rows b n h (vs : list (list (num F))) :
  0 < b → 0 < h → length vs = b * n →
  reshape_batch b h (of_rows h vs) = Ok (Tensor3 b n h (concat vs)).
Proof.
  intros Hb Hh Hlen. unfold reshape_batch. simpl. rewrite Hlen.
  replace (b * n * h) with (n * (b * h)) by lia.
  rewrite infer_size_mul by lia. done.
Qed.

Lemma mean_dim1_blocks {B} (g : B → list (list (num F))) n h (xs : list B) :
  (∀ x, x ∈ xs → length (g x) = n ∧ rect h (g x)) →
  mean_dim1 (Tensor3 (length xs) n h (concat (concat (map g xs))))
  = of_rows h (map (λ x, mean_vec n h (g x)) xs).
Proof.
  intros Hg. unfold mean_dim1, of_rows; simpl. rewrite length_map. f_equal.
  rewrite concat_concat, map_map. f_equal.
  rewrite <- (length_map (λ x, concat (g x)) xs).
  rewrite chunks_concat.
  - rewrite map_map. apply map_ext_in. intros x Hx%list_elem_of_In.
    destruct (Hg x Hx) as [<- Hr]. by rewrite chunks_concat.
  - apply rect_map. intros x Hx. destruct (Hg x Hx) as [<- Hr].
    by apply rect_concat_length.
Qed.

Lemma length_vsum h (vs : list (list (num F))) : rect h vs → length (vsum h vs) = h.
Proof.
  unfold vsum. induction 1 as [|v vs Hv _ IH]; simpl; [by rewrite length_replicate|].
  rewrite length_zip_with. lia.
Qed.

Lemma length_mean_vec n h (vs : list (list (num F))) :
  rect h vs → length (mean_vec n h vs) = h.
Proof.
  intros Hr. unfold mean_vec. destruct n; [by rewrite length_replicate|].
  by rewrite length_map, length_vsum.
Qed.

Lemma cat_dim1_of_rows {B} (f g : B → list (num F)) a b (xs : list B) :
  (∀ x, x ∈ xs → length (f x) = a) → (∀ x, x ∈ xs → length (g x) = b) →
  cat_dim1 (of_rows a (map f xs)) (of_rows b (map g xs))
  = Ok (of_rows (a + b) (map (λ x, f x ++ g x) xs)).
Proof.
  intros Hf Hg. unfold cat_dim1.
  rewrite !rows_of_of_rows by (by apply rect_map). simpl.
  rewrite !length_map, Nat.eqb_refl. unfold of_rows. rewrite !length_map.
  do 3 f_equal. clear. induction xs as [|x xs IH]; simpl; [done|]. by rewrite IH.
Qed.
End TorchFacts.

(** ** The layer stacks built by the constructors *)

Section Layers.
Context {F : Type} `{Scalar F}.
Implicit Types (t : tensor2 F) (rs : list (list (num F))) (l : Linear F).

Lemma bind_Ok {A B} (a : A) (f : A → result B) : (Ok a ≫= f) = f a.
Proof. done. Qed.


Lemma bind_Raise {A B} e (f : A → result B) : (Raise e ≫= f) = Raise e.
Proof. done. Qed.

Lemma Sequential_forward_nil t : Sequential_forward [] t = Ok t.
Proof. done. Qed.

Lemma fc_layer_of_rows l f ms w rs :
  rect w rs → w = in_features l →
  Sequential_forward (LinearLayer l :: Activation f :: ms) (of_rows w rs)
  = Sequential_forward ms
      (of_rows (out_features l) (map (λ r, map (napply f) (linear_vec l r)) rs)).
Proof.
  intros Hr Hw. cbn [Sequential_forward layer_forward].
  rewrite Linear_forward_of_rows, bind_Ok by done.
  unfold of_rows; simpl. by rewrite concat_map, map_map, !length_map.
Qed.

(* The shape of what a fully-connected layer and its activation return,
   whatever the data. *)
Lemma fc_layer_shape l f ms t :
  Sequential_forward (LinearLayer l :: Activation f :: ms) t
  = if ncols t =? in_features l then
      Sequential_forward ms
        (Tensor2 (nrows t) (out_features l)
           (map (napply f) (concat (map (linear_vec l) (rows_of t)))))
    else Raise (RuntimeError MatMulMismatch).
Proof.
  cbn [Sequential_forward layer_forward]. unfold Linear_forward.
  by destruct (ncols t =? in_features l).
Qed.

Lemma calc_num_elements_fc2 i o1 o2 θ1 θ2 f g :
  calc_num_elements
    [LinearLayer (nn_Linear i o1 θ1); Activation f;
     LinearLayer (nn_Linear o1 o2 θ2); Activation g] i = Ok o2.
Proof.
  unfold calc_num_elements. rewrite !fc_layer_shape. simpl.
  rewrite !Nat.eqb_refl. simpl. f_equal. lia.
Qed.

Lemma calc_num_elements_fc1 i o θ f :
  calc_num_elements [LinearLayer (nn_Linear i o θ); Activation f] i = Ok o.
Proof.
  unfold calc_num_elements. rewrite !fc_layer_shape. simpl.
  rewrite !Nat.eqb_refl. simpl. f_equal. lia.
Qed.
End Layers.

(** ** The mean-embedding encoder *)

Section MeanEncoder.
Context {F : Type} `{Scalar F} `{Nonlinearity F}.
Implicit Types (rs : list (list (num F))) (θ : nat → Linear_init F).
Import QuadMultiMeanEncoder.

Lemma mean_init_eq cfg θ so do ho :
  __init__ cfg θ so do ho =
  Ok {| self_obs_dim := default 18 so;
        neighbor_obs_dim := default 6 do;
        neighbor_hidden_size := default 32 ho;
        self_encoder :=
          [ LinearLayer (nn_Linear (default 18 so) (hidden_size cfg) (θ 0));
            Activation (nonlinearity cfg);
            LinearLayer (nn_Linear (hidden_size cfg) (hidden_size cfg) (θ 1));
            Activation (nonlinearity cfg) ];
        neighbor_encoder :=
          [ LinearLayer (nn_Linear (default 6 do) (default 32 ho) (θ 2));
            Activation (nonlinearity cfg) ];
        self_encoder_out_size := hidden_size cfg;
        neighbor_encoder_out_size := default 32 ho;
        feed_forward :=
          nn_Linear (hidden_size cfg + default 32 ho) (hidden_size cfg) (θ 3) |}.
Proof.
  unfold __init__. cbv zeta.
  by rewrite calc_num_elements_fc2, bind_Ok, calc_num_elements_fc1, bind_Ok.
Qed.

Lemma mean_forward_rows cfg θ so do ho enc od rs n :
  let s := default 18 so in
  let d := default 6 do in
  let h := default 32 ho in
  __init__ cfg θ so do ho = Ok enc →
  od !! "obs" = Some (of_rows (s + n * d) rs) →
  rect (s + n * d) rs →
  forward enc od =
    if (length rs =? 0) || (d =? 0) || (h =? 0)
    then Raise (RuntimeError AmbiguousInferredDim)
    else Ok (of_rows (hidden_size cfg) (map (mean_embedding cfg θ s d h) rs)).
Proof.
  intros s d h Hinit Hobs Hr.
  rewrite mean_init_eq in Hinit. injection Hinit as <-.
  fold s d h. unfold forward, getitem. rewrite Hobs, bind_Ok. cbn [self_obs_dim
    neighbor_obs_dim neighbor_hidden_size self_encoder neighbor_encoder feed_forward].
  rewrite cols_to_of_rows, cols_from_of_rows by done.
  replace (s `min` (s + n * d)) with s by lia.
  replace (s + n * d - s) with (n * d) by lia.
  assert (Hself : rect s (map (take s) rs)).
  { apply rect_map. intros r Hin. rewrite length_take, (rect_elem _ _ _ Hr Hin). lia. }
  assert (Hnb : rect (n * d) (map (drop s) rs)).
  { apply rect_map. intros r Hin. rewrite length_drop, (rect_elem _ _ _ Hr Hin). lia. }
  rewrite fc_layer_of_rows by done. cbn [out_features nn_Linear].
  rewrite fc_layer_of_rows; [|apply rect_map; intros; by rewrite length_map, length_linear_vec|done].
  cbn [out_features nn_Linear]. rewrite Sequential_forward_nil, bind_Ok.
  rewrite !map_map. cbn [nrows of_rows]. rewrite length_map.
  destruct (Nat.eqb_spec d 0) as [Hd0|Hd0].
  { rewrite orb_true_r. cbn [orb]. unfold reshape_rows. cbn [nrows ncols of_rows].
    by rewrite Hd0, !Nat.mul_0_r. }
  rewrite orb_false_r.
  rewrite reshape_rows_of_rows, bind_Ok by (done || lia).
  assert (Hch : rect d (concat (map (chunks n d) (map (drop s) rs)))).
  { apply Forall_concat, Forall_map, Forall_map, Forall_forall. intros r Hin. cbn.
    apply chunks_rect. rewrite length_drop, (rect_elem _ _ _ Hr Hin). lia. }
  rewrite fc_layer_of_rows, Sequential_forward_nil, bind_Ok by done.
  cbn [out_features nn_Linear].
  rewrite concat_map, !map_map.
  set (g := λ r, map (λ x, map (napply (nonlinearity cfg))
                             (linear_vec (nn_Linear d h (θ 2)) x))
                     (chunks n d (drop s r))).
  destruct (Nat.eqb_spec h 0) as [Hh0|Hh0].
  { rewrite orb_true_r. unfold reshape_batch. cbn [nrows ncols of_rows].
    by rewrite Hh0, !Nat.mul_0_r. }
  rewrite orb_false_r.
  destruct (Nat.eqb_spec (length rs) 0) as [Hb0|Hb0].
  { destruct rs; [done|discriminate]. }
  assert (Hg : ∀ r, r ∈ rs → length (g r) = n ∧ rect h (g r)).
  { intros r _. unfold g. rewrite length_map, chunks_length. split; [done|].
    apply rect_map. intros x _. by rewrite length_map, length_linear_vec. }
  rewrite (reshape_batch_of_rows _ n), bind_Ok; [|lia|lia|].
  2:{ clear -Hg. induction rs as [|r rs IH]; simpl; [lia|].
      rewrite length_app, IH.
      - destruct (Hg r) as [-> _]; [left|lia].
      - intros r' Hin. apply Hg. by right. }
  rewrite mean_dim1_blocks by done.
  rewrite (cat_dim1_of_rows _ _ (hidden_size cfg) h), bind_Ok.
  2:{ intros r _. by rewrite length_map, length_linear_vec. }
  2:{ intros r Hin. apply length_mean_vec, Hg, Hin. }
  rewrite Linear_forward_of_rows, bind_Ok.
  2:{ apply rect_map. intros r Hin. rewrite length_app, length_map, length_linear_vec.
      cbn [out_features nn_Linear]. f_equal. apply length_mean_vec, Hg, Hin. }
  2:{ done. }
  cbn [out_features nn_Linear]. rewrite map_map. do 2 f_equal.
  apply map_ext_in. intros r Hin%list_elem_of_In.
  unfold mean_embedding, fc_act, g. cbv zeta.
  rewrite length_drop, (rect_elem _ _ _ Hr Hin).
  replace (s + n * d - s) with (n * d) by lia.
  rewrite Nat.div_mul by done. done.
Qed.
End MeanEncoder.

(** ** The histogram encoder *)

Section HistogramEncoder.
Context {F : Type} `{Scalar F} `{Nonlinearity F}.
Implicit Types (rs : list (list (num F))) (θ : nat → Linear_init F).
Import QuadMultiHistogramEncoder.

Lemma histogram_init_eq cfg θ so bo ho :
  __init__ cfg θ so bo ho =
  Ok {| self_obs_dim := default 18 so;
        histogram_bins := default 64 bo;
        histogram_hidden_size := default 64 ho;
        self_encoder :=
          [ LinearLayer (nn_Linear (default 18 so) (hidden_size cfg) (θ 0));
            Activation (nonlinearity cfg);
            LinearLayer (nn_Linear (hidden_size cfg) (hidden_size cfg) (θ 1));
            Activation (nonlinearity cfg) ];
        histogram_encoder :=
          [ LinearLayer (nn_Linear (default 64 bo) (default 64 ho) (θ 2));
            Activation (nonlinearity cfg) ];
        self_encoder_out_size := hidden_size cfg;
        histogram_encoder_out_size := default 64 ho;
        feed_forward :=
          nn_Linear (hidden_size cfg + default 64 ho) (hidden_size cfg) (θ 3);
        encoder_out_size := hidden_size cfg |}.
Proof.
  unfold __init__. cbv zeta.
  by rewrite calc_num_elements_fc2, bind_Ok, calc_num_elements_fc1, bind_Ok.
Qed.

Lemma histogram_forward_rows cfg θ so bo ho enc od rs :
  let s := default 18 so in
  let b := default 64 bo in
  let h := default 64 ho in
  __init__ cfg θ so bo ho = Ok enc →
  od !! "obs" = Some (of_rows (s + b) rs) →
  rect (s + b) rs →
  forward enc od
  = Ok (of_rows (hidden_size cfg) (map (histogram_embedding cfg θ s b h) rs)).
Proof.
  intros s b h Hinit Hobs Hr.
  rewrite histogram_init_eq in Hinit. injection Hinit as <-.
  fold s b h. unfold forward, getitem. rewrite Hobs, bind_Ok.
  cbn [self_obs_dim histogram_bins histogram_hidden_size self_encoder
       histogram_encoder feed_forward].
  rewrite cols_to_of_rows, cols_from_of_rows by done.
  replace (s `min` (s + b)) with s by lia.
  replace (s + b - s) with b by lia.
  assert (Hself : rect s (map (take s) rs)).
  { apply rect_map. intros r Hin. rewrite length_take, (rect_elem _ _ _ Hr Hin). lia. }
  assert (Hh : rect b (map (drop s) rs)).
  { apply rect_map. intros r Hin. rewrite length_drop, (rect_elem _ _ _ Hr Hin). lia. }
  rewrite (fc_layer_of_rows _ _ _ s) by done. cbn [out_features nn_Linear].
  rewrite (fc_layer_of_rows _ _ _ (hidden_size cfg));
    [|apply rect_map; intros; by rewrite length_map, length_linear_vec|done].
  rewrite (fc_layer_of_rows _ _ _ b) by done.
  cbn [out_features nn_Linear]. rewrite !Sequential_forward_nil, !bind_Ok.
  rewrite !map_map.
  rewrite (cat_dim1_of_rows _ _ (hidden_size cfg) h), bind_Ok;
    [|intros; by rewrite length_map, length_linear_vec..].
  rewrite Linear_forward_of_rows, bind_Ok; [|apply rect_map; intros r _|done].
  - cbn [out_features nn_Linear]. by rewrite map_map.
  - by rewrite length_app, !length_map, !length_linear_vec.
Qed.
End HistogramEncoder.

(** ** Shapes, attributes and defaults *)

Section EncoderShapes.
Context {F : Type} `{Scalar F} `{Nonlinearity F}.
Implicit Types (θ : nat → Linear_init F) (obs : tensor2 F).

Lemma length_mean_embedding cfg θ s d h (x : list (num F)) :
  length (mean_embedding cfg θ s d h x) = hidden_size cfg.
Proof. unfold mean_embedding. cbv zeta. by rewrite length_linear_vec. Qed.

Lemma length_histogram_embedding cfg θ s b h (x : list (num F)) :
  length (histogram_embedding cfg θ s b h x) = hidden_size cfg.
Proof. unfold histogram_embedding. cbv zeta. by rewrite length_linear_vec. Qed.

Lemma mean_forward_valid cfg θ so do ho enc od obs n :
  QuadMultiMeanEncoder.__init__ cfg θ so do ho = Ok enc →
  od !! "obs" = Some obs →
  wf2 obs →
  0 < nrows obs → 0 < default 6 do → 0 < default 32 ho →
  ncols obs = default 18 so + n * default 6 do →
  QuadMultiMeanEncoder.forward enc od
  = Ok (of_rows (hidden_size cfg)
          (map (mean_embedding cfg θ (default 18 so) (default 6 do) (default 32 ho))
               (rows_of obs))).
Proof.
  intros Hinit Hobs Hwf Hb Hd Hh Hcols.
  rewrite <- (of_rows_rows_of obs), Hcols in Hobs by done.
  pose proof (rows_of_rect obs Hwf) as Hr. rewrite Hcols in Hr.
  rewrite (mean_forward_rows _ _ _ _ _ _ _ _ _ Hinit Hobs Hr).
  rewrite rows_of_length.
  destruct (Nat.eqb_spec (nrows obs) 0); [lia|].
  destruct (Nat.eqb_spec (default 6 do) 0); [lia|].
  destruct (Nat.eqb_spec (default 32 ho) 0); [lia|]. done.
Qed.

(** C6.  On a batch of at least one observation whose neighbor segment
    holds [n] vectors of length [neighbor_obs_dim], the forward pass of
    the mean-embedding encoder returns, row by row, the pipeline of
    section 4.1: two fully-connected layers with nonlinearity on the self
    segment, one fully-connected layer with nonlinearity on every
    neighbor, the average over the neighbors, and the final
    fully-connected layer on the concatenation. *)
Theorem mean_forward_pipeline cfg θ so do ho enc od obs n :
  QuadMultiMeanEncoder.__init__ cfg θ so do ho = Ok enc →
  od !! "obs" = Some obs →
  wf2 obs →
  0 < nrows obs → 0 < default 6 do → 0 < default 32 ho →
  ncols obs = default 18 so + n * default 6 do →
  QuadMultiMeanEncoder.forward enc od
  = Ok (of_rows (hidden_size cfg)
          (map (mean_embedding cfg θ (default 18 so) (default 6 do) (default 32 ho))
               (rows_of obs))).
Proof. apply mean_forward_valid. Qed.

(** C5.  On a valid batch of B observations both encoders return a
    tensor of shape (B, hidden_size).  For the mean-embedding encoder a
    valid batch has B ≥ 1 rows of width self_obs_dim + n·neighbor_obs_dim
    (with positive neighbor_obs_dim and neighbor_hidden_size); for the
    histogram encoder it has rows of width self_obs_dim + histogram_bins. *)
Theorem encoders_output_shape :
  (∀ cfg θ so do ho enc od obs n,
     QuadMultiMeanEncoder.__init__ cfg θ so do ho = Ok enc →
     od !! "obs" = Some obs →
     wf2 obs →
     0 < nrows obs → 0 < default 6 do → 0 < default 32 ho →
     ncols obs = default 18 so + n * default 6 do →
     ∃ out, QuadMultiMeanEncoder.forward enc od = Ok out ∧
            nrows out = nrows obs ∧ ncols out = hidden_size cfg ∧ wf2 out)
  ∧
  (∀ cfg θ so bo ho enc od obs,
     QuadMultiHistogramEncoder.__init__ cfg θ so bo ho = Ok enc →
     od !! "obs" = Some obs →
     wf2 obs →
     ncols obs = default 18 so + default 64 bo →
     ∃ out, QuadMultiHistogramEncoder.forward enc od = Ok out ∧
            nrows out = nrows obs ∧ ncols out = hidden_size cfg ∧ wf2 out).
Proof.
  split.
  - intros cfg θ so do ho enc od obs n Hinit Hobs Hwf Hb Hd Hh Hcols.
    eexists. split; [by eapply mean_forward_valid|].
    cbn [nrows ncols of_rows]. rewrite length_map, rows_of_length.
    split_and!; [done..|].
    apply wf2_of_rows, rect_map. intros. apply length_mean_embedding.
  - intros cfg θ so bo ho enc od obs Hinit Hobs Hwf Hcols.
    rewrite <- (of_rows_rows_of obs), Hcols in Hobs by done.
    pose proof (rows_of_rect obs Hwf) as Hr. rewrite Hcols in Hr.
    eexists. split; [by eapply histogram_forward_rows|].
    cbn [nrows ncols of_rows]. rewrite length_map, rows_of_length.
    split_and!; [done..|].
    apply wf2_of_rows, rect_map. intros. apply length_histogram_embedding.
Qed.

(** C7.  Constructing the histogram encoder succeeds, and the encoder
    built carries the attribute [encoder_out_size], equal to
    cfg.hidden_size, which is also the width of its final
    fully-connected layer. *)
Theorem histogram_encoder_out_size cfg θ so bo ho :
  ∃ enc, QuadMultiHistogramEncoder.__init__ cfg θ so bo ho = Ok enc ∧
         QuadMultiHistogramEncoder.encoder_out_size enc = hidden_size cfg ∧
         out_features (QuadMultiHistogramEncoder.feed_forward enc) = hidden_size cfg.
Proof. eexists. split; [apply histogram_init_eq|]. done. Qed.

(** C8.  With the optional constructor arguments left out, the
    mean-embedding encoder has a self segment of length 18 and
    per-neighbor vectors of length 6, and the histogram encoder has a
    self segment of length 18 and a histogram of 64 bins. *)
Theorem constructor_defaults cfg θ :
  (∃ enc, QuadMultiMeanEncoder.__init__ cfg θ None None None = Ok enc ∧
          QuadMultiMeanEncoder.self_obs_dim enc = 18 ∧
          QuadMultiMeanEncoder.neighbor_obs_dim enc = 6)
  ∧
  (∃ enc, QuadMultiHistogramEncoder.__init__ cfg θ None None None = Ok enc ∧
          QuadMultiHistogramEncoder.self_obs_dim enc = 18 ∧
          QuadMultiHistogramEncoder.histogram_bins enc = 64).
Proof.
  split; eexists.
  - split; [apply mean_init_eq|]. done.
  - split; [apply histogram_init_eq|]. done.
Qed.
End EncoderShapes.

Lemma mean_forward_pipeline_witness :
  ∃ enc,
    QuadMultiMeanEncoder.__init__ demo_cfg demo_init (Some 1) (Some 2) (Some 3) = Ok enc ∧
    QuadMultiMeanEncoder.forward enc {[ "obs" := demo_obs ]}
    = Ok (of_rows 2 (map (mean_embedding demo_cfg demo_init 1 2 3) (rows_of demo_obs))).
Proof.
  eexists. split; [apply mean_init_eq|].
  apply (mean_forward_pipeline demo_cfg demo_init (Some 1) (Some 2) (Some 3) _
           {[ "obs" := demo_obs ]} demo_obs 2).
  - apply mean_init_eq.
  - reflexivity.
  - reflexivity.
  - simpl; lia.
  - simpl; lia.
  - simpl; lia.
  - reflexivity.
Defined.

Lemma encoders_output_shape_witness :
  (∃ enc out,
     QuadMultiMeanEncoder.__init__ demo_cfg demo_init (Some 1) (Some 2) (Some 3) = Ok enc ∧
     QuadMultiMeanEncoder.forward enc {[ "obs" := demo_obs ]} = Ok out ∧
     nrows out = 2 ∧ ncols out = 2 ∧ wf2 out)
  ∧
  (∃ enc out,
     QuadMultiHistogramEncoder.__init__ demo_cfg demo_init (Some 1) (Some 4) (Some 3) = Ok enc ∧
     QuadMultiHistogramEncoder.forward enc {[ "obs" := demo_obs ]} = Ok out ∧
     nrows out = 2 ∧ ncols out = 2 ∧ wf2 out).
Proof.
  split.
  - destruct (proj1 encoders_output_shape demo_cfg demo_init
                (Some 1) (Some 2) (Some 3) _ {[ "obs" := demo_obs ]} demo_obs 2
                (mean_init_eq _ _ _ _ _)) as (out & Hout & Hshape);
      [reflexivity | reflexivity | simpl; lia | simpl; lia | simpl; lia | reflexivity |].
    eexists _, out. split; [apply mean_init_eq|]. split; [exact Hout|exact Hshape].
  - destruct (proj2 encoders_output_shape demo_cfg demo_init
                (Some 1) (Some 4) (Some 3) _ {[ "obs" := demo_obs ]} demo_obs
                (histogram_init_eq _ _ _ _ _)) as (out & Hout & Hshape);
      [reflexivity | reflexivity | reflexivity |].
    eexists _, out. split; [apply histogram_init_eq|]. split; [exact Hout|exact Hshape].
Defined.

(** ** Reordering the neighbors *)

Section NeighborOrder.
Context {F : Type} `{Scalar F} `{Nonlinearity F}.
Hypothesis fadd_comm : ∀ x y : F, fadd x y = fadd y x.
Hypothesis fadd_assoc : ∀ x y z : F, fadd x (fadd y z) = fadd (fadd x y) z.
Implicit Types (θ : nat → Linear_init F) (obs : tensor2 F) (a b c : num F).

Lemma nadd_swap a b c : nadd a (nadd b c) = nadd b (nadd a c).
Proof using fadd_comm fadd_assoc.
  destruct a as [x|], b as [y|], c as [z|]; simpl; try done.
  by rewrite !fadd_assoc, (fadd_comm x y).
Qed.

Lemma zip_nadd_swap (u v w : list (num F)) :
  zip_with nadd u (zip_with nadd v w) = zip_with nadd v (zip_with nadd u w).
Proof using fadd_comm fadd_assoc.
  revert v w. induction u as [|a u IH]; intros [|b v] [|c w]; simpl; try done.
  by rewrite nadd_swap, IH.
Qed.

Lemma vsum_perm h (vs vs' : list (list (num F))) :
  vs ≡ₚ vs' → vsum h vs = vsum h vs'.
Proof using fadd_comm fadd_assoc.
  unfold vsum. induction 1 as [|v vs vs' _ IH|u v vs|vs1 vs2 vs3 _ IH1 _ IH2]; simpl.
  - done.
  - by rewrite IH.
  - apply zip_nadd_swap.
  - by rewrite IH1.
Qed.

Lemma mean_vec_perm n h (vs vs' : list (list (num F))) :
  vs ≡ₚ vs' → mean_vec n h vs = mean_vec n h vs'.
Proof using fadd_comm fadd_assoc.
  intros Hp. unfold mean_vec. destruct n; [done|]. by rewrite (vsum_perm h vs vs').
Qed.

Lemma mean_embedding_perm cfg θ s d h n (x x' : list (num F)) :
  d ≠ 0 → length x = s + n * d → length x' = s + n * d →
  neighbors_permuted s d n x x' →
  mean_embedding cfg θ s d h x = mean_embedding cfg θ s d h x'.
Proof using fadd_comm fadd_assoc.
  intros Hd Hx Hx' [Hself Hnb]. unfold mean_embedding. cbv zeta.
  rewrite !length_drop, Hx, Hx'.
  replace (s + n * d - s) with (n * d) by lia. rewrite Nat.div_mul by done.
  rewrite Hself. do 2 f_equal.
  apply mean_vec_perm. by apply Permutation_map.
Qed.

(** C1.  Two batches of the same shape whose rows have the same self
    segment and the same [n] per-neighbor vectors of length
    [neighbor_obs_dim], in any order, are sent to the same result by the
    forward pass of one mean-embedding encoder, provided the addition of
    the arithmetic is commutative and associative. *)
Theorem mean_forward_permutation_invariant cfg θ so do ho enc od od' obs obs' n :
  QuadMultiMeanEncoder.__init__ cfg θ so do ho = Ok enc →
  od !! "obs" = Some obs → od' !! "obs" = Some obs' →
  wf2 obs → wf2 obs' →
  nrows obs' = nrows obs →
  ncols obs = default 18 so + n * default 6 do →
  ncols obs' = default 18 so + n * default 6 do →
  Forall2 (neighbors_permuted (default 18 so) (default 6 do) n)
          (rows_of obs) (rows_of obs') →
  QuadMultiMeanEncoder.forward enc od = QuadMultiMeanEncoder.forward enc od'.
Proof using fadd_comm fadd_assoc.
  intros Hinit Hobs Hobs' Hwf Hwf' Hrows Hcols Hcols' Hperm.
  rewrite <- (of_rows_rows_of obs), Hcols in Hobs by done.
  rewrite <- (of_rows_rows_of obs'), Hcols' in Hobs' by done.
  pose proof (rows_of_rect obs Hwf) as Hr. rewrite Hcols in Hr.
  pose proof (rows_of_rect obs' Hwf') as Hr'. rewrite Hcols' in Hr'.
  rewrite (mean_forward_rows _ _ _ _ _ _ _ _ _ Hinit Hobs Hr).
  rewrite (mean_forward_rows _ _ _ _ _ _ _ _ _ Hinit Hobs' Hr').
  rewrite !rows_of_length, Hrows.
  destruct (Nat.eqb_spec (default 6 do) 0) as [Hd|Hd].
  { by rewrite !orb_true_r. }
  destruct (_ || _ || _); [done|]. do 2 f_equal.
  revert Hr Hr'. generalize (rows_of obs') (rows_of obs) Hperm. clear -fadd_comm fadd_assoc Hd.
  induction 1 as [|x x' rs rs' Hx _ IH]; intros Hr Hr'; [done|].
  apply Forall_cons in Hr as [Hlen Hr]. apply Forall_cons in Hr' as [Hlen' Hr'].
  simpl. f_equal; [|by apply IH]. by apply (mean_embedding_perm _ _ _ _ _ n).
Qed.
End NeighborOrder.

Lemma mean_forward_permutation_invariant_witness :
  ∃ enc,
    QuadMultiMeanEncoder.__init__ demo_cfg demo_init (Some 1) (Some 2) (Some 3) = Ok enc ∧
    QuadMultiMeanEncoder.forward enc {[ "obs" := demo_obs3 ]}
    = QuadMultiMeanEncoder.forward enc {[ "obs" := demo_obs3_rotated ]}.
Proof.
  eexists. split; [apply mean_init_eq|].
  apply (@mean_forward_permutation_invariant Z Z_scalar Z_relu Z.add_comm Z.add_assoc
           demo_cfg demo_init (Some 1) (Some 2) (Some 3) _ _ _ demo_obs3 demo_obs3_rotated 3).
  - apply mean_init_eq.
  - reflexivity.
  - reflexivity.
  - reflexivity.
  - reflexivity.
  - reflexivity.
  - reflexivity.
  - reflexivity.
  - constructor; [|constructor]. split; [reflexivity|]. simpl.
    eapply perm_trans; [apply perm_swap|]. apply perm_skip, perm_swap.
Defined.

(* In binary32, 2^24 + 1 is rounded to 2^24.  Adding the neighbors 2^24, 1
   and 1 gives 2^24 + 2 when the two 1 are added first and 2^24 when they
   are added one after the other to 2^24: whichever end the sum starts
   from, the two orders below give two different embeddings. *)
Lemma mean_forward_binary32_order :
  ∃ enc,
    QuadMultiMeanEncoder.__init__ f32_cfg f32_init (Some 1) (Some 1) (Some 1) = Ok enc ∧
    wf2 f32_obs ∧ wf2 f32_obs_reordered ∧
    Forall2 (neighbors_permuted 1 1 3) (rows_of f32_obs) (rows_of f32_obs_reordered) ∧
    QuadMultiMeanEncoder.forward enc {[ "obs" := f32_obs ]}
    = Ok (Tensor2 1 1 [Val (f32 5592406)]) ∧
    QuadMultiMeanEncoder.forward enc {[ "obs" := f32_obs_reordered ]}
    = Ok (Tensor2 1 1 [Val (binary_normalize 24 128 11184811 (-1) false)]) ∧
    QuadMultiMeanEncoder.forward enc {[ "obs" := f32_obs ]}
    ≠ QuadMultiMeanEncoder.forward enc {[ "obs" := f32_obs_reordered ]}.
Proof.
  eexists. split; [apply mean_init_eq|].
  split; [reflexivity|]. split; [reflexivity|].
  split.
  { constructor; [|constructor]. split; [reflexivity|]. simpl.
    eapply perm_trans; [apply perm_swap|]. apply perm_skip, perm_swap. }
  split; [vm_compute; reflexivity|].
  split; [vm_compute; reflexivity|].
  vm_compute. discriminate.
Qed.

(** ** Shapes the mean-embedding encoder refuses *)

Section MeanDefined.
Context {F : Type} `{Scalar F} `{Nonlinearity F}.
Implicit Types (θ : nat → Linear_init F) (obs : tensor2 F) (l : Linear F).
Import QuadMultiMeanEncoder.

Lemma infer_size_Raise numel m e :
  infer_size numel m = Raise e →
  e = RuntimeError InvalidShape
  ∨ (e = RuntimeError AmbiguousInferredDim ∧ m = 0 ∧ numel = 0).
Proof.
  unfold infer_size. destruct (Nat.eqb_spec numel m) as [->|Hne]; simpl.
  - destruct (Nat.eqb_spec m 0) as [->|]; [|done]. intros [= <-]. by right.
  - destruct (_ && _) eqn:Hc; [|intros [= <-]; by left].
    apply andb_true_iff in Hc as [Hm%Nat.ltb_lt _].
    destruct (Nat.eqb_spec m 0); [lia|done].
Qed.

Lemma mean_forward_short cfg θ so do ho enc od obs :
  __init__ cfg θ so do ho = Ok enc →
  od !! "obs" = Some obs →
  ncols obs < default 18 so →
  forward enc od = Raise (RuntimeError MatMulMismatch).
Proof.
  intros Hinit Hobs Hlt. rewrite mean_init_eq in Hinit. injection Hinit as <-.
  unfold forward, getitem. rewrite Hobs, bind_Ok.
  cbn [self_obs_dim self_encoder]. rewrite fc_layer_shape.
  cbn [ncols cols_to in_features nn_Linear].
  destruct (Nat.eqb_spec (default 18 so `min` ncols obs) (default 18 so)) as [?|_];
    [lia|done].
Qed.

End MeanDefined.

(** ** The mean over no neighbor *)

Section Finite.
Context {F : Type} `{Scalar F} `{Nonlinearity F}.
Implicit Types (θ : nat → Linear_init F) (obs : tensor2 F) (l : Linear F)
  (x w : list (num F)) (a b : num F).




End Finite.

Section MeanDefinedIff.
Context {F : Type} `{Scalar F} `{Nonlinearity F}.
Implicit Types (θ : nat → Linear_init F) (obs : tensor2 F).
Import QuadMultiMeanEncoder.


Lemma mean_init_fields cfg θ so do ho enc :
  __init__ cfg θ so do ho = Ok enc →
  self_obs_dim enc = default 18 so ∧
  neighbor_obs_dim enc = default 6 do ∧
  neighbor_hidden_size enc = default 32 ho.
Proof. rewrite mean_init_eq. by intros [= <-]. Qed.



(* [forward] is [neighbor_embeds] followed by the mean, the concatenation
   and the final layer. *)
Lemma forward_after_neighbor_embeds (self : t F) od :
  forward self od =
    (neighbor_embeds ← neighbor_embeds self od;
     obs ← getitem od "obs";
     self_embed ← Sequential_forward (self_encoder self) (cols_to (self_obs_dim self) obs);
     embeddings ← cat_dim1 self_embed (mean_dim1 neighbor_embeds);
     Linear_forward (feed_forward self) embeddings).
Proof.
  unfold forward, neighbor_embeds.
  destruct (getitem od "obs") as [obs|e] eqn:Hobs; [|done]. rewrite !bind_Ok. cbv beta zeta.
  destruct (Sequential_forward (self_encoder self) _) as [se|e] eqn:Hse; [|done].
  rewrite !bind_Ok. cbv beta.
  destruct (reshape_rows _ _) as [on|e]; [|done]. rewrite !bind_Ok. cbv beta.
  destruct (Sequential_forward (neighbor_encoder self) on) as [ne|e]; [|done].
  rewrite !bind_Ok. cbv beta.
  destruct (reshape_batch _ _ ne) as [ne3|e]; [|done]. rewrite !bind_Ok. cbv beta.
  rewrite Hse, bind_Ok. cbv beta.
  destruct (cat_dim1 _ _) as [emb|e]; [|done]. rewrite !bind_Ok. cbv beta.
  by destruct (Linear_forward _ _).
Qed.


End MeanDefinedIff.


(** ** The registration function *)

Section Registry.
Implicit Types (reg : gmap string encoder_class) (key : string).

Lemma register_models_present arg reg :
  is_Some (reg !! default "quad_multi_encoder_deepset" arg) →
  register_models arg reg = (None, reg).
Proof. intros [c Hc]. unfold register_models. cbv zeta. by rewrite Hc. Qed.

Lemma register_models_deepset reg :
  reg !! "quad_multi_encoder_deepset" = None →
  register_models (Some "quad_multi_encoder_deepset") reg
  = (None, <["quad_multi_encoder_deepset" := QuadMultiMeanEncoderCls]> reg).
Proof. intros Hn. unfold register_models. cbv zeta. cbn [default from_option id]. by rewrite Hn. Qed.

Lemma register_models_histogram reg :
  reg !! "quad_multi_encoder_histogram" = None →
  register_models (Some "quad_multi_encoder_histogram") reg
  = (None, <["quad_multi_encoder_histogram" := QuadMultiHistogramEncoderCls]> reg).
Proof. intros Hn. unfold register_models. cbv zeta. cbn [default from_option id]. by rewrite Hn. Qed.

Lemma register_models_unknown key reg :
  reg !! key = None →
  key ≠ "quad_multi_encoder_deepset" → key ≠ "quad_multi_encoder_histogram" →
  register_models (Some key) reg
  = (Some (NotImplementedError ("encoder " +:+ key +:+ " not supported!")), reg).
Proof.
  intros Hn H1%String.eqb_neq H2%String.eqb_neq.
  unfold register_models. cbv zeta. cbn [default from_option id]. by rewrite Hn, H1, H2.
Qed.

Lemma register_models_no_error key reg :
  key = "quad_multi_encoder_deepset" ∨ key = "quad_multi_encoder_histogram" →
  (register_models (Some key) reg).1 = None.
Proof.
  intros Hk. destruct (reg !! key) as [c|] eqn:Hc.
  - by rewrite register_models_present.
  - destruct Hk as [-> | ->].
    + by rewrite register_models_deepset.
    + by rewrite register_models_histogram.
Qed.

(** C2.  For a key that is not in the registry and is neither of the
    two recognized keys, [register_models] raises a not-implemented error
    whose message contains the key; for the two recognized keys (and for
    the default argument) it raises nothing, whatever the registry. *)
Theorem register_models_error_cases :
  (∀ key reg,
     reg !! key = None →
     key ≠ "quad_multi_encoder_deepset" → key ≠ "quad_multi_encoder_histogram" →
     ∃ msg, (register_models (Some key) reg).1 = Some (NotImplementedError msg) ∧
            contains key msg)
  ∧ (∀ reg, (register_models (Some "quad_multi_encoder_deepset") reg).1 = None)
  ∧ (∀ reg, (register_models (Some "quad_multi_encoder_histogram") reg).1 = None)
  ∧ (∀ reg, (register_models None reg).1 = None).
Proof.
  split_and!.
  - intros key reg Hn H1 H2. rewrite register_models_unknown by done.
    eexists. split; [done|]. by exists "encoder ", " not supported!".
  - intros reg. apply register_models_no_error. by left.
  - intros reg. apply register_models_no_error. by right.
  - intros reg. apply (register_models_no_error "quad_multi_encoder_deepset"). by left.
Qed.

(** C3.  When the key is already in the registry, [register_models]
    returns without raising and leaves the registry as it was; and after
    one call with a recognized key, a second call with the same key
    changes nothing. *)
Theorem register_models_idempotent :
  (∀ key reg, is_Some (reg !! key) → register_models (Some key) reg = (None, reg))
  ∧ (∀ key reg,
       key = "quad_multi_encoder_deepset" ∨ key = "quad_multi_encoder_histogram" →
       register_models (Some key) (register_models (Some key) reg).2
       = (None, (register_models (Some key) reg).2)).
Proof.
  split.
  - intros key reg Hs. by apply register_models_present.
  - intros key reg Hk. apply register_models_present. cbn [default from_option id].
    destruct (reg !! key) as [c|] eqn:Hc.
    + rewrite register_models_present by (cbn [default from_option id]; by rewrite Hc).
      cbn [snd]. by rewrite Hc.
    + destruct Hk as [-> | ->].
      * rewrite register_models_deepset by done. cbn [snd].
        rewrite lookup_insert_eq. done.
      * rewrite register_models_histogram by done. cbn [snd].
        rewrite lookup_insert_eq. done.
Qed.

(** C4.  Starting from a registry without the key, registering
    'quad_multi_encoder_deepset' (explicitly or as the default argument)
    makes a lookup of that key return the mean-embedding class, and
    registering 'quad_multi_encoder_histogram' makes a lookup of that key
    return the histogram class. *)
Theorem register_models_registers :
  (∀ reg, reg !! "quad_multi_encoder_deepset" = None →
     (register_models (Some "quad_multi_encoder_deepset") reg).2
       !! "quad_multi_encoder_deepset" = Some QuadMultiMeanEncoderCls ∧
     (register_models None reg).2
       !! "quad_multi_encoder_deepset" = Some QuadMultiMeanEncoderCls)
  ∧ (∀ reg, reg !! "quad_multi_encoder_histogram" = None →
     (register_models (Some "quad_multi_encoder_histogram") reg).2
       !! "quad_multi_encoder_histogram" = Some QuadMultiHistogramEncoderCls).
Proof.
  split.
  - intros reg Hn.
    change (register_models None reg)
      with (register_models (Some "quad_multi_encoder_deepset") reg).
    rewrite register_models_deepset by done. cbn [snd].
    by rewrite lookup_insert_eq.
  - intros reg Hn. rewrite register_models_histogram by done. cbn [snd].
    by rewrite lookup_insert_eq.
Qed.

(** C10.  A call of [register_models] leaves the entry of every key
    other than its argument as it was; and when the call raises, the
    whole registry is as it was. *)
Theorem register_models_frame :
  (∀ arg reg key',
     key' ≠ default "quad_multi_encoder_deepset" arg →
     (register_models arg reg).2 !! key' = reg !! key')
  ∧ (∀ arg reg e,
       (register_models arg reg).1 = Some e → (register_models arg reg).2 = reg).
Proof.
  split.
  - intros arg reg key' Hne. unfold register_models. cbv zeta.
    destruct (reg !! default "quad_multi_encoder_deepset" arg); [done|].
    repeat destruct (String.eqb _ _); cbn [snd]; [| |done];
      unfold register_custom_encoder; by rewrite lookup_insert_ne.
  - intros arg reg e. unfold register_models. cbv zeta.
    destruct (reg !! default "quad_multi_encoder_deepset" arg); [done|].
    by repeat destruct (String.eqb _ _).
Qed.
End Registry.

Lemma register_models_error_cases_witness :
  ∃ msg, (register_models (Some "not_a_real_encoder") demo_registry).1
         = Some (NotImplementedError msg) ∧
         contains "not_a_real_encoder" msg.
Proof.
  apply (proj1 register_models_error_cases "not_a_real_encoder" demo_registry).
  - reflexivity.
  - discriminate.
  - discriminate.
Defined.

Lemma register_models_idempotent_witness :
  register_models (Some "conv_encoder") demo_registry = (None, demo_registry)
  ∧ register_models (Some "quad_multi_encoder_deepset")
      (register_models (Some "quad_multi_encoder_deepset") demo_registry).2
    = (None, (register_models (Some "quad_multi_encoder_deepset") demo_registry).2).
Proof.
  split.
  - apply (proj1 register_models_idempotent "conv_encoder" demo_registry).
    exists (FrameworkEncoderCls "ConvEncoder"). reflexivity.
  - apply (proj2 register_models_idempotent "quad_multi_encoder_deepset" demo_registry).
    left. reflexivity.
Defined.

Lemma register_models_registers_witness :
  (register_models None demo_registry).2 !! "quad_multi_encoder_deepset"
  = Some QuadMultiMeanEncoderCls
  ∧ (register_models (Some "quad_multi_encoder_histogram") demo_registry).2
      !! "quad_multi_encoder_histogram" = Some QuadMultiHistogramEncoderCls.
Proof.
  split.
  - apply (proj1 register_models_registers demo_registry). reflexivity.
  - apply (proj2 register_models_registers demo_registry). reflexivity.
Defined.

Lemma register_models_frame_witness :
  (register_models None demo_registry).2 !! "conv_encoder" = demo_registry !! "conv_encoder"
  ∧ (register_models (Some "not_a_real_encoder") demo_registry).2 = demo_registry.
Proof.
  split.
  - apply (proj1 register_models_frame None demo_registry "conv_encoder"). discriminate.
  - apply (proj2 register_models_frame (Some "not_a_real_encoder") demo_registry
             (NotImplementedError "encoder not_a_real_encoder not supported!")).
    reflexivity.
Defined.

(** * Further properties of the encoders *)

(** ** The observation dictionary *)

Section ObsDict.
Context {F : Type} `{Scalar F} `{Nonlinearity F}.
Implicit Types (od : gmap string (tensor2 F)).

(** X1.  Both forward passes read the dictionary at the key 'obs' only:
    without that key they raise KeyError('obs'), and two dictionaries with
    the same entry at 'obs' give the same result whatever else they hold. *)
Theorem forward_reads_obs_only :
  (∀ (enc : QuadMultiMeanEncoder.t F) od,
     od !! "obs" = None → QuadMultiMeanEncoder.forward enc od = Raise (KeyError "obs"))
  ∧ (∀ (enc : QuadMultiHistogramEncoder.t F) od,
     od !! "obs" = None → QuadMultiHistogramEncoder.forward enc od = Raise (KeyError "obs"))
  ∧ (∀ (enc : QuadMultiMeanEncoder.t F) od od',
     od !! "obs" = od' !! "obs" →
     QuadMultiMeanEncoder.forward enc od = QuadMultiMeanEncoder.forward enc od')
  ∧ (∀ (enc : QuadMultiHistogramEncoder.t F) od od',
     od !! "obs" = od' !! "obs" →
     QuadMultiHistogramEncoder.forward enc od = QuadMultiHistogramEncoder.forward enc od').
Proof.
  split_and!.
  - intros enc od Hn. unfold QuadMultiMeanEncoder.forward, getitem. by rewrite Hn.
  - intros enc od Hn. unfold QuadMultiHistogramEncoder.forward, getitem. by rewrite Hn.
  - intros enc od od' Heq. unfold QuadMultiMeanEncoder.forward, getitem. by rewrite Heq.
  - intros enc od od' Heq. unfold QuadMultiHistogramEncoder.forward, getitem. by rewrite Heq.
Qed.
End ObsDict.

Lemma forward_reads_obs_only_witness :
  ∃ enc,
    QuadMultiMeanEncoder.__init__ demo_cfg demo_init (Some 1) (Some 2) (Some 3) = Ok enc ∧
    QuadMultiMeanEncoder.forward enc {[ "observation" := demo_obs ]} = Raise (KeyError "obs") ∧
    QuadMultiMeanEncoder.forward enc {[ "obs" := demo_obs ]}
    = QuadMultiMeanEncoder.forward enc (<[ "goal" := demo_obs_swapped ]> {[ "obs" := demo_obs ]}).
Proof.
  eexists. split; [apply mean_init_eq|]. split.
  - apply (proj1 forward_reads_obs_only). reflexivity.
  - apply (proj1 (proj2 (proj2 forward_reads_obs_only))). reflexivity.
Defined.

(** ** The histogram encoder, row by row *)

Section HistogramForward.
Context {F : Type} `{Scalar F} `{Nonlinearity F}.
Implicit Types (θ : nat → Linear_init F) (obs : tensor2 F).
Import QuadMultiHistogramEncoder.

Lemma histogram_forward_mismatch cfg θ so bo ho enc od obs :
  __init__ cfg θ so bo ho = Ok enc →
  od !! "obs" = Some obs →
  ncols obs ≠ default 18 so + default 64 bo →
  forward enc od = Raise (RuntimeError MatMulMismatch).
Proof.
  intros Hinit Hobs Hne. rewrite histogram_init_eq in Hinit. injection Hinit as <-.
  set (s := default 18 so) in *. set (b := default 64 bo) in *.
  unfold forward, getitem. rewrite Hobs, bind_Ok.
  cbn [self_obs_dim histogram_bins histogram_hidden_size self_encoder
       histogram_encoder feed_forward].
  rewrite !fc_layer_shape. cbn [ncols nrows cols_to cols_from in_features out_features nn_Linear].
  rewrite Nat.eqb_refl.
  destruct (Nat.eqb_spec (s `min` ncols obs) s) as [Hmin|?]; [|done].
  rewrite !Sequential_forward_nil, bind_Ok. cbv beta.
  destruct (Nat.eqb_spec (ncols obs - s) b) as [?|_]; [lia|done].
Qed.

(** X2.  On a batch of any number of rows (none included) of width
    self_obs_dim + histogram_bins, the forward pass of the histogram
    encoder returns, row by row: two fully-connected layers with
    nonlinearity on the first self_obs_dim entries, one fully-connected
    layer with nonlinearity on the rest, and the final fully-connected
    layer on the concatenation of the two. *)
Theorem histogram_forward_pipeline cfg θ so bo ho enc od obs :
  __init__ cfg θ so bo ho = Ok enc →
  od !! "obs" = Some obs →
  wf2 obs →
  ncols obs = default 18 so + default 64 bo →
  forward enc od
  = Ok (of_rows (hidden_size cfg)
          (map (histogram_embedding cfg θ (default 18 so) (default 64 bo) (default 64 ho))
               (rows_of obs))).
Proof.
  intros Hinit Hobs Hwf Hcols.
  rewrite <- (of_rows_rows_of obs), Hcols in Hobs by done.
  pose proof (rows_of_rect obs Hwf) as Hr. rewrite Hcols in Hr.
  by eapply histogram_forward_rows.
Qed.

(** X3.  The histogram encoder accepts one observation width only: with
    a well-formed batch, the forward pass returns a tensor exactly when
    the width is self_obs_dim + histogram_bins, and for every other width
    it raises the matrix-product shape error, whatever the batch size. *)
Theorem histogram_forward_width cfg θ so bo ho enc od obs :
  __init__ cfg θ so bo ho = Ok enc →
  od !! "obs" = Some obs →
  wf2 obs →
  ((∃ out, forward enc od = Ok out) ↔ ncols obs = self_obs_dim enc + histogram_bins enc)
  ∧ (ncols obs ≠ self_obs_dim enc + histogram_bins enc →
     forward enc od = Raise (RuntimeError MatMulMismatch)).
Proof.
  intros Hinit Hobs Hwf.
  assert (Hf : self_obs_dim enc = default 18 so ∧ histogram_bins enc = default 64 bo).
  { pose proof Hinit as Hi. rewrite histogram_init_eq in Hi. by injection Hi as <-. }
  destruct Hf as [-> ->].
  split; [split|].
  - intros [out Hout].
    destruct (decide (ncols obs = default 18 so + default 64 bo)) as [|Hne]; [done|].
    by rewrite (histogram_forward_mismatch _ _ _ _ _ _ _ _ Hinit Hobs Hne) in Hout.
  - intros Hcols. eexists.
    rewrite <- (of_rows_rows_of obs), Hcols in Hobs by done.
    pose proof (rows_of_rect obs Hwf) as Hr. rewrite Hcols in Hr.
    by eapply histogram_forward_rows.
  - intros Hne. by eapply histogram_forward_mismatch.
Qed.
End HistogramForward.

Lemma histogram_forward_pipeline_witness :
  ∃ enc,
    QuadMultiHistogramEncoder.__init__ demo_cfg demo_init (Some 1) (Some 4) (Some 3) = Ok enc ∧
    QuadMultiHistogramEncoder.forward enc {[ "obs" := Tensor2 0 5 [] ]} = Ok (Tensor2 0 2 []) ∧
    QuadMultiHistogramEncoder.forward enc {[ "obs" := demo_obs ]}
    = Ok (of_rows 2 (map (histogram_embedding demo_cfg demo_init 1 4 3) (rows_of demo_obs))).
Proof.
  eexists. split; [apply histogram_init_eq|]. split.
  - apply (histogram_forward_pipeline demo_cfg demo_init (Some 1) (Some 4) (Some 3) _
             {[ "obs" := Tensor2 0 5 [] ]} (Tensor2 0 5 []));
      [apply histogram_init_eq | reflexivity | reflexivity | reflexivity].
  - apply (histogram_forward_pipeline demo_cfg demo_init (Some 1) (Some 4) (Some 3) _
             {[ "obs" := demo_obs ]} demo_obs);
      [apply histogram_init_eq | reflexivity | reflexivity | reflexivity].
Defined.

Lemma histogram_forward_width_witness :
  ∃ enc,
    QuadMultiHistogramEncoder.__init__ demo_cfg demo_init (Some 1) (Some 3) (Some 3) = Ok enc ∧
    QuadMultiHistogramEncoder.forward enc {[ "obs" := demo_obs ]}
    = Raise (RuntimeError MatMulMismatch).
Proof.
  eexists. split; [apply histogram_init_eq|].
  apply (histogram_forward_width demo_cfg demo_init (Some 1) (Some 3) (Some 3) _
           {[ "obs" := demo_obs ]} demo_obs).
  - apply histogram_init_eq.
  - reflexivity.
  - reflexivity.
  - simpl; lia.
Defined.

(** ** When the mean-embedding encoder returns *)

Section MeanReturns.
Context {F : Type} `{Scalar F} `{Nonlinearity F}.
Implicit Types (θ : nat → Linear_init F) (obs : tensor2 F).
Import QuadMultiMeanEncoder.

Lemma result_bind_ext {A B} (m : result A) (f g : A → result B) :
  (∀ a, f a = g a) → (m ≫= f) = (m ≫= g).
Proof. intros Hfg. destruct m; [apply Hfg|done]. Qed.

(* What is left of the forward pass once the self segment is encoded. *)
Lemma mean_forward_after_self cfg θ so do ho enc od obs :
  __init__ cfg θ so do ho = Ok enc →
  od !! "obs" = Some obs →
  default 18 so ≤ ncols obs →
  ∃ self_embed,
    forward enc od =
      (N ← infer_size (nrows obs * (ncols obs - default 18 so)) (default 6 do);
       k ← infer_size (N * default 32 ho) (nrows obs * default 32 ho);
       embeddings ← cat_dim1 self_embed
         (mean_dim1 (Tensor3 (nrows obs) k (default 32 ho)
            (map (napply (nonlinearity cfg))
               (concat (map (linear_vec (nn_Linear (default 6 do) (default 32 ho) (θ 2)))
                  (rows_of (Tensor2 N (default 6 do)
                              (data2 (cols_from (default 18 so) obs)))))))));
       Linear_forward
         (nn_Linear (hidden_size cfg + default 32 ho) (hidden_size cfg) (θ 3)) embeddings).
Proof.
  intros Hinit Hobs Hle. rewrite mean_init_eq in Hinit. injection Hinit as <-.
  set (s := default 18 so) in *. set (d := default 6 do) in *.
  set (h := default 32 ho) in *.
  unfold forward, getitem. rewrite Hobs, bind_Ok.
  cbn [self_obs_dim neighbor_obs_dim neighbor_hidden_size self_encoder
       neighbor_encoder feed_forward].
  rewrite !fc_layer_shape. cbn [ncols nrows cols_to in_features out_features nn_Linear].
  rewrite Nat.eqb_refl.
  destruct (Nat.eqb_spec (s `min` ncols obs) s) as [_|?]; [|lia].
  rewrite Sequential_forward_nil, bind_Ok. eexists.
  unfold reshape_rows. cbn [nrows ncols cols_from].
  destruct (infer_size (nrows obs * (ncols obs - s)) d) as [N|e]; [|done].
  rewrite !bind_Ok. cbv beta. rewrite fc_layer_shape.
  cbn [ncols nrows in_features out_features nn_Linear].
  rewrite Nat.eqb_refl, Sequential_forward_nil, bind_Ok.
  unfold reshape_batch. cbn [ncols nrows data2].
  destruct (infer_size (N * h) (nrows obs * h)) as [k|e]; [|done].
  rewrite !bind_Ok. cbv beta.
  apply result_bind_ext. intros emb. by destruct (Linear_forward _ _).
Qed.

(** X4.  Whether the forward pass of the mean-embedding encoder returns
    a tensor is decided by shapes alone.  For a well-formed batch it
    returns exactly when the batch has at least one row,
    neighbor_obs_dim and neighbor_hidden_size are positive, the rows are at
    least self_obs_dim wide, and what is left after the self segment is a
    multiple of neighbor_obs_dim (zero included). *)
Theorem mean_forward_returns_iff cfg θ so do ho enc od obs :
  __init__ cfg θ so do ho = Ok enc →
  od !! "obs" = Some obs →
  wf2 obs →
  (∃ out, forward enc od = Ok out)
  ↔ (0 < nrows obs ∧ 0 < neighbor_obs_dim enc ∧ 0 < neighbor_hidden_size enc ∧
     self_obs_dim enc ≤ ncols obs ∧
     Nat.divide (neighbor_obs_dim enc) (ncols obs - self_obs_dim enc)).
Proof.
  intros Hinit Hobs Hwf.
  destruct (mean_init_fields _ _ _ _ _ _ Hinit) as (-> & -> & ->).
  set (s := default 18 so). set (d := default 6 do). set (h := default 32 ho).
  split.
  - intros [out Hout].
    destruct (decide (ncols obs < s)) as [Hlt|Hge].
    { by rewrite (mean_forward_short _ _ _ _ _ _ _ _ Hinit Hobs Hlt) in Hout. }
    destruct (mean_forward_after_self _ _ _ _ _ _ _ _ Hinit Hobs) as [se Hfw]; [lia|].
    rewrite Hfw in Hout. fold s d h in Hout.
    destruct (infer_size (nrows obs * (ncols obs - s)) d) as [N|e] eqn:Hi; [|done].
    rewrite bind_Ok in Hout. cbv beta in Hout.
    destruct (infer_size (N * h) (nrows obs * h)) as [k|e] eqn:Hi2; [|done].
    apply infer_size_Ok in Hi as [Hd HN]. apply infer_size_Ok in Hi2 as [Hbh Hk].
    assert (Hb : 0 < nrows obs) by nia. assert (Hh : 0 < h) by nia.
    split_and!; [done..|lia|]. exists k.
    assert (HNk : N = k * nrows obs).
    { apply (Nat.mul_cancel_r _ _ h); lia. }
    apply (Nat.mul_cancel_l _ _ (nrows obs)); [lia|]. rewrite HN, HNk. lia.
  - intros (Hb & Hd & Hh & Hle & [k Hk]).
    eexists. apply (mean_forward_valid cfg θ so do ho enc od obs k); try done.
    fold s d. lia.
Qed.

(** X5.  A batch of no observation never gets through the
    mean-embedding encoder: if the width is below self_obs_dim the first
    fully-connected layer raises the matrix-product shape error, otherwise
    a reshape raises because the size of the dimension given as -1 cannot
    be inferred for a tensor without elements. *)
Theorem mean_forward_empty_batch cfg θ so do ho enc od obs :
  __init__ cfg θ so do ho = Ok enc →
  od !! "obs" = Some obs →
  nrows obs = 0 →
  forward enc od =
    if ncols obs <? self_obs_dim enc
    then Raise (RuntimeError MatMulMismatch)
    else Raise (RuntimeError AmbiguousInferredDim).
Proof.
  intros Hinit Hobs Hb.
  destruct (mean_init_fields _ _ _ _ _ _ Hinit) as (-> & _ & _).
  destruct (Nat.ltb_spec (ncols obs) (default 18 so)) as [Hlt|Hge].
  { by eapply mean_forward_short. }
  destruct (mean_forward_after_self _ _ _ _ _ _ _ _ Hinit Hobs Hge) as [se ->].
  rewrite Hb. cbn [Nat.mul].
  destruct (default 6 do) as [|d]; [done|].
  assert (Hz : infer_size 0 (S d) = Ok 0) by (apply (infer_size_mul 0 (S d)); lia).
  rewrite Hz, bind_Ok. cbv beta. cbn [Nat.mul]. by rewrite infer_size_zero_zero.
Qed.

(** X6.  Each row of the result depends on the matching observation
    only: on a valid batch, row [i] of the result is what the encoder
    returns when it is given observation [i] alone, as a batch of one. *)
Theorem mean_forward_row_alone cfg θ so do ho enc od od1 obs n i x :
  __init__ cfg θ so do ho = Ok enc →
  od !! "obs" = Some obs →
  wf2 obs →
  0 < default 6 do → 0 < default 32 ho →
  ncols obs = default 18 so + n * default 6 do →
  rows_of obs !! i = Some x →
  od1 !! "obs" = Some (Tensor2 1 (ncols obs) x) →
  ∃ out y, forward enc od = Ok out ∧
           rows_of out !! i = Some y ∧
           forward enc od1 = Ok (Tensor2 1 (hidden_size cfg) y).
Proof.
  intros Hinit Hobs Hwf Hd Hh Hcols Hi Hobs1.
  assert (Hb : 0 < nrows obs).
  { rewrite <- (rows_of_length obs). apply lookup_lt_Some in Hi. lia. }
  assert (Hx : length x = ncols obs).
  { eapply rect_elem; [by apply rows_of_rect|]. by eapply list_elem_of_lookup_2. }
  rewrite (mean_forward_valid cfg θ so do ho enc od obs n) by done.
  rewrite (mean_forward_valid cfg θ so do ho enc od1 (Tensor2 1 (ncols obs) x) n);
    [|done|done|unfold wf2; cbn; lia|cbn; lia|done..].
  eexists _, _. split; [done|]. split.
  - rewrite rows_of_of_rows.
    + by rewrite list_lookup_fmap, Hi.
    + apply rect_map. intros. apply length_mean_embedding.
  - unfold rows_of, of_rows. cbn [nrows ncols data2 chunks map concat length].
    by rewrite <- Hx, firstn_all, app_nil_r.
Qed.

End MeanReturns.

Lemma mean_forward_returns_iff_witness :
  ∃ enc,
    QuadMultiMeanEncoder.__init__ demo_cfg demo_init (Some 1) (Some 2) (Some 3) = Ok enc ∧
    ∃ out, QuadMultiMeanEncoder.forward enc {[ "obs" := demo_obs ]} = Ok out.
Proof.
  eexists. split; [apply mean_init_eq|].
  apply (mean_forward_returns_iff demo_cfg demo_init (Some 1) (Some 2) (Some 3) _
           {[ "obs" := demo_obs ]} demo_obs);
    [apply mean_init_eq | reflexivity | reflexivity |].
  simpl. split_and!; [lia..|]. by exists 2.
Defined.

Lemma mean_forward_empty_batch_witness :
  ∃ enc,
    QuadMultiMeanEncoder.__init__ demo_cfg demo_init (Some 1) (Some 2) (Some 3) = Ok enc ∧
    QuadMultiMeanEncoder.forward enc {[ "obs" := Tensor2 0 5 [] ]}
    = Raise (RuntimeError AmbiguousInferredDim).
Proof.
  eexists. split; [apply mean_init_eq|].
  exact (mean_forward_empty_batch demo_cfg demo_init (Some 1) (Some 2) (Some 3) _
           {[ "obs" := Tensor2 0 5 [] ]} (Tensor2 0 5 [])
           (mean_init_eq _ _ _ _ _) eq_refl eq_refl).
Defined.

Lemma mean_forward_row_alone_witness :
  ∃ enc out y,
    QuadMultiMeanEncoder.__init__ demo_cfg demo_init (Some 1) (Some 2) (Some 3) = Ok enc ∧
    QuadMultiMeanEncoder.forward enc {[ "obs" := demo_obs ]} = Ok out ∧
    rows_of out !! 1 = Some y ∧
    QuadMultiMeanEncoder.forward enc
      {[ "obs" := Tensor2 1 5 (map Val [6; 7; 8; 9; 10]%Z) ]}
    = Ok (Tensor2 1 2 y).
Proof.
  destruct (mean_forward_row_alone demo_cfg demo_init (Some 1) (Some 2) (Some 3) _
              {[ "obs" := demo_obs ]}
              {[ "obs" := Tensor2 1 5 (map Val [6; 7; 8; 9; 10]%Z) ]}
              demo_obs 2 1 (map Val [6; 7; 8; 9; 10]%Z)
              (mean_init_eq _ _ _ _ _)) as (out & y & Hout & Hy & Hone);
    [reflexivity | reflexivity | simpl; lia | simpl; lia | reflexivity
    | reflexivity | reflexivity |].
  eexists _, out, y. split; [apply mean_init_eq|]. split_and!; [exact Hout|exact Hy|exact Hone].
Defined.

(** ** The errors of the mean-embedding encoder *)

Section MeanErrors.
Context {F : Type} `{Scalar F} `{Nonlinearity F}.
Implicit Types (θ : nat → Linear_init F) (obs : tensor2 F).
Import QuadMultiMeanEncoder.

(** X8.  With the key 'obs' present and a well-formed batch, the forward
    pass of the mean-embedding encoder fails in two ways only: rows
    narrower than self_obs_dim raise the matrix-product shape error in the
    first fully-connected layer, and every other failure is raised by one
    of the two reshapes (invalid shape, or a -1 dimension that cannot be
    inferred); concatenation and the final layer never fail. *)
Theorem mean_forward_error_kinds cfg θ so do ho enc od obs :
  __init__ cfg θ so do ho = Ok enc →
  od !! "obs" = Some obs →
  wf2 obs →
  (ncols obs < self_obs_dim enc → forward enc od = Raise (RuntimeError MatMulMismatch))
  ∧ (self_obs_dim enc ≤ ncols obs →
     (∃ out, forward enc od = Ok out)
     ∨ forward enc od = Raise (RuntimeError InvalidShape)
     ∨ forward enc od = Raise (RuntimeError AmbiguousInferredDim)).
Proof.
  intros Hinit Hobs Hwf.
  destruct (mean_init_fields _ _ _ _ _ _ Hinit) as (-> & _ & _).
  set (s := default 18 so). set (d := default 6 do). set (h := default 32 ho).
  split; [intros Hlt; by eapply mean_forward_short|].
  intros Hle.
  destruct (mean_forward_after_self _ _ _ _ _ _ _ _ Hinit Hobs Hle) as [se Hfw].
  fold s d h in Hfw.
  destruct (infer_size (nrows obs * (ncols obs - s)) d) as [N|e] eqn:Hi.
  2:{ right. rewrite Hfw, bind_Raise.
      apply infer_size_Raise in Hi as [->|(-> & _)]; [by left|by right]. }
  rewrite bind_Ok in Hfw. cbv beta in Hfw.
  destruct (infer_size (N * h) (nrows obs * h)) as [k|e] eqn:Hi2.
  2:{ right. rewrite Hfw, bind_Raise.
      apply infer_size_Raise in Hi2 as [->|(-> & _)]; [by left|by right]. }
  left. clear Hfw.
  apply infer_size_Ok in Hi as [Hd HN]. apply infer_size_Ok in Hi2 as [Hbh Hk].
  assert (Hb : 0 < nrows obs) by nia. assert (Hh : 0 < h) by nia.
  assert (HNk : N = k * nrows obs).
  { apply (Nat.mul_cancel_r _ _ h); lia. }
  assert (Hm : ncols obs - s = k * d).
  { apply (Nat.mul_cancel_l _ _ (nrows obs)); [lia|]. rewrite HN, HNk. lia. }
  eexists. apply (mean_forward_valid cfg θ so do ho enc od obs k); try done.
  fold s d. lia.
Qed.
End MeanErrors.

Lemma mean_forward_error_kinds_witness :
  ∃ enc,
    QuadMultiMeanEncoder.__init__ demo_cfg demo_init (Some 6) (Some 2) (Some 3) = Ok enc ∧
    QuadMultiMeanEncoder.forward enc {[ "obs" := demo_obs ]}
    = Raise (RuntimeError MatMulMismatch).
Proof.
  eexists. split; [apply mean_init_eq|].
  apply (mean_forward_error_kinds demo_cfg demo_init (Some 6) (Some 2) (Some 3) _
           {[ "obs" := demo_obs ]} demo_obs).
  - apply mean_init_eq.
  - reflexivity.
  - reflexivity.
  - simpl; lia.
Defined.

(** ** More on the registration function *)

Section RegistryMore.
Implicit Types (reg : gmap string encoder_class) (arg : option string).

Lemma register_models_key arg reg :
  register_models arg reg
  = register_models (Some (default "quad_multi_encoder_deepset" arg)) reg.
Proof. by destruct arg. Qed.

Lemma register_models_effect k :
  ∃ (f : option encoder_class) (e : option exn), ∀ reg,
    register_models (Some k) reg =
    match reg !! k with
    | Some _ => (None, reg)
    | None => match f with Some c => (None, <[k:=c]> reg) | None => (e, reg) end
    end.
Proof.
  unfold register_models. cbv zeta. cbn [default from_option id].
  destruct (String.eqb k "quad_multi_encoder_deepset");
    [|destruct (String.eqb k "quad_multi_encoder_histogram")].
  - by exists (Some QuadMultiMeanEncoderCls), None.
  - by exists (Some QuadMultiHistogramEncoderCls), None.
  - by eexists None, _.
Qed.

(** X9.  [register_models] never removes an entry and never replaces
    one: every key of the registry is still mapped to the same class after
    the call, the argument's own key included (so a class that something
    else registered under a recognized name stays). *)
Theorem register_models_preserves arg reg :
  reg ⊆ (register_models arg reg).2.
Proof.
  unfold register_models. cbv zeta.
  destruct (reg !! default "quad_multi_encoder_deepset" arg) eqn:Hk; [done|].
  repeat destruct (String.eqb _ _); cbn [snd]; [| |done];
    unfold register_custom_encoder; by apply insert_subseteq.
Qed.

(** X10.  The call returns without raising exactly when the argument's
    key is in the registry once the call is over; after a call that
    raises, the key is still absent. *)
Theorem register_models_returns_iff_registered arg reg :
  (register_models arg reg).1 = None
  ↔ is_Some ((register_models arg reg).2 !! default "quad_multi_encoder_deepset" arg).
Proof.
  unfold register_models. cbv zeta.
  destruct (reg !! default "quad_multi_encoder_deepset" arg) eqn:Hk.
  - cbn [fst snd]. rewrite Hk. split; [eauto|done].
  - repeat destruct (String.eqb _ _); cbn [fst snd]; unfold register_custom_encoder.
    + rewrite lookup_insert_eq. split; [eauto|done].
    + rewrite lookup_insert_eq. split; [eauto|done].
    + rewrite Hk. split; [done|]. by intros [? ?].
Qed.

(** X11.  Two calls of [register_models] can be made in either order:
    the registry they leave is the same, and when their keys differ,
    whether the second call raises does not depend on the first having
    been made. *)
Theorem register_models_commute arg1 arg2 reg :
  (register_models arg2 (register_models arg1 reg).2).2
  = (register_models arg1 (register_models arg2 reg).2).2
  ∧ (default "quad_multi_encoder_deepset" arg1 ≠ default "quad_multi_encoder_deepset" arg2 →
     (register_models arg2 (register_models arg1 reg).2).1 = (register_models arg2 reg).1).
Proof.
  rewrite !(register_models_key arg1), !(register_models_key arg2).
  generalize (default "quad_multi_encoder_deepset" arg1)
             (default "quad_multi_encoder_deepset" arg2). intros k1 k2.
  destruct (decide (k1 = k2)) as [->|Hne]; [by split|].
  destruct (register_models_effect k1) as (f1 & e1 & E1).
  destruct (register_models_effect k2) as (f2 & e2 & E2).
  rewrite !E1, !E2.
  destruct (reg !! k1) eqn:H1, (reg !! k2) eqn:H2, f1, f2; cbn [fst snd];
    rewrite ?lookup_insert_ne by done; rewrite ?H1, ?H2; cbn [fst snd];
    (split; [|reflexivity]); try reflexivity.
  by apply insert_insert_ne.
Qed.
End RegistryMore.

Lemma register_models_commute_witness :
  (register_models (Some "quad_multi_encoder_histogram")
     (register_models None demo_registry).2).1
  = (register_models (Some "quad_multi_encoder_histogram") demo_registry).1.
Proof.
  apply (proj2 (register_models_commute None (Some "quad_multi_encoder_histogram")
                  demo_registry)).
  discriminate.
Defined.

